(** * eps-packages-scrapping-api: a shallow embedding of [main.py]

    The module scrapes a logistics portal and serves the parsed package list.
    It keeps three pieces of process-wide state: the [requests] session (its
    cookie jar), the [CACHE] dictionary and the [lru_cache] table in front of
    [get_config].  The embedding threads them through a state-and-exception
    monad; what a call observes of the outside world (the clock, the content of
    [config.ini], the answers of the portal) is an explicit environment.

    Conventions.
    - A Python [str] is a Rocq [string] whose characters are read as the code
      points U+0000..U+00FF.
    - A Python [float] is a primitive binary64 [float]; the arithmetic of
      [get_packages] is the IEEE arithmetic of the source.
    - Library routines with a large grammar of their own are taken as
      parameters: [float] applied to a [str], and the parse-and-select step
      [BeautifulSoup(text, 'html.parser').select('#fTrackingPaquetes [data-groups]')].
    - [ConfigParser] values are taken literally (no [%(name)s] interpolation),
      and [config.ini], when present, is a well-formed ini file. *)

From Stdlib Require Import ZArith Floats Ascii String.
From stdpp Require Import gmap strings list.

Local Open Scope string_scope.
Local Open Scope list_scope.

(** ** Exceptions and results *)

Inductive exn : Type :=
  | KeyError
  | ValueError
  | TypeError
  | AttributeError
  | OverflowError
  | NoSectionError
  | NoOptionError
  | RequestException.

Inductive result (A : Type) : Type :=
  | Ok (a : A)
  | Raise (e : exn).
Arguments Ok {A} a.
Arguments Raise {A} e.

#[global] Instance result_fmap : FMap result := fun A B f r =>
  match r with
  | Ok a => Ok (f a)
  | Raise e => Raise e
  end.

#[global] Instance exn_eq_dec : EqDecision exn.
Proof. solve_decision. Defined.

#[global] Instance result_ret : MRet result := fun A a => Ok a.
#[global] Instance result_bind : MBind result := fun A B f r =>
  match r with
  | Ok a => f a
  | Raise e => Raise e
  end.

(** ** Strings *)

(** [str.isspace] on one code point below U+0100. *)
Definition py_isspace (c : ascii) : bool :=
  match c with
  | "009" | "010" | "011" | "012" | "013"
  | "028" | "029" | "030" | "031" | " " | "133" | "160" => true
  | _ => false
  end%char.

(** [str.split()] without argument: maximal runs of non-space characters.
    [w] is the word being read, if any. *)
Fixpoint split_ws_from (w : option string) (s : string) : list string :=
  match s with
  | "" => match w with Some x => [x] | None => [] end
  | String c s' =>
      if py_isspace c then
        match w with
        | Some x => x :: split_ws_from None s'
        | None => split_ws_from None s'
        end
      else split_ws_from (Some (default "" w +:+ String c "")) s'
  end.

Definition py_split (s : string) : list string := split_ws_from None s.

(** [str.split(sep)] for a one-character separator: one more piece than there
    are separators, empty pieces kept. *)
Fixpoint py_split_on (sep : ascii) (s : string) : list string :=
  match s with
  | "" => [""]
  | String c s' =>
      if Ascii.eqb c sep then "" :: py_split_on sep s'
      else match py_split_on sep s' with
           | w :: ws => String c w :: ws
           | [] => [String c ""]
           end
  end.

(** [str.lower] on one code point below U+0100. *)
Definition py_lower_char (c : ascii) : ascii :=
  let n := nat_of_ascii c in
  if (65 <=? n)%nat && (n <=? 90)%nat then ascii_of_nat (n + 32)
  else if (192 <=? n)%nat && (n <=? 222)%nat && negb (n =? 215)%nat
       then ascii_of_nat (n + 32)
  else c.

Fixpoint py_lower (s : string) : string :=
  match s with
  | "" => ""
  | String c s' => String (py_lower_char c) (py_lower s')
  end.

(** ** Values handed to and returned by [get_config] *)

Inductive pyval : Type :=
  | PStr (s : string)
  | PInt (z : Z).

#[global] Instance pyval_eq_dec : EqDecision pyval.
Proof. solve_decision. Defined.

#[global] Instance pyval_countable : Countable pyval :=
  inj_countable'
    (fun v => match v with PStr s => inl s | PInt z => inr z end)
    (fun x => match x with inl s => PStr s | inr z => PInt z end)
    (fun v => match v with PStr _ | PInt _ => eq_refl end).

(** ** [configparser.ConfigParser] *)

(** The parser object after [config.read]: the options of the [DEFAULT]
    section and those of every other section, option names already lowered by
    [optionxform]. *)
Record ConfigParser : Type := {
  _defaults : gmap string string;
  _sections : gmap string (gmap string string);
}.

Definition default_section : string := "DEFAULT".

(** [ConfigParser()] followed by [read] of a missing file. *)
Definition empty_config : ConfigParser :=
  {| _defaults := ∅; _sections := ∅ |}.

(** [config.get(section, option)]: the section's own options shadow the
    defaults. *)
Definition ConfigParser_get (config : ConfigParser) (section option : string)
  : result string :=
  let lookup_in (d : gmap string string) :=
    match (d ∪ _defaults config) !! py_lower option with
    | Some v => Ok v
    | None => Raise NoOptionError
    end in
  match _sections config !! section with
  | Some d => lookup_in d
  | None =>
      if decide (section = default_section) then lookup_in ∅
      else Raise NoSectionError
  end.

(** [config[section][option] = value]: [__getitem__] looks the section up
    (raising [KeyError]), the proxy's [__setitem__] accepts only a [str] and
    stores it. *)
Definition ConfigParser_setitem (config : ConfigParser)
    (section option : string) (value : pyval) : result ConfigParser :=
  if decide (section = default_section) then
    match value with
    | PStr v =>
        Ok {| _defaults := <[py_lower option := v]> (_defaults config);
              _sections := _sections config |}
    | PInt _ => Raise TypeError
    end
  else
    match _sections config !! section with
    | None => Raise KeyError
    | Some d =>
        match value with
        | PStr v =>
            Ok {| _defaults := _defaults config;
                  _sections :=
                    <[section := <[py_lower option := v]> d]> (_sections config) |}
        | PInt _ => Raise TypeError
        end
    end.

(** The inner function of [get_config]. *)
Definition config_get (config : ConfigParser) (section_option : string)
    (default : pyval) : result pyval :=
  match py_split_on "." section_option with
  | [section; option] =>
      match ConfigParser_get config section option with
      | Ok v => Ok (PStr v)
      | Raise NoOptionError | Raise NoSectionError => Ok default
      | Raise e => Raise e
      end
  | _ => Raise ValueError
  end.

(** What [get_config] returns: one setting, or the parser itself. *)
Inductive config_ret : Type :=
  | Setting (v : pyval)
  | Parser (config : ConfigParser).

(** The body of [get_config], run on the content [ini] of [config.ini]. *)
Definition get_config_body (ini : ConfigParser)
    (_section_config : string) (_default : pyval) : result config_ret :=
  name ← config_get ini "user.name" (PStr "");
  config1 ← ConfigParser_setitem ini "user" "name" name;
  password ← config_get config1 "user.password" (PStr "");
  config2 ← ConfigParser_setitem config1 "user" "password" password;
  if decide (_section_config = "") then Ok (Parser config2)
  else Setting <$> config_get config2 _section_config _default.

(** ** The scraped page: BeautifulSoup elements *)

(** A page element is a text node or a tag with its attribute dictionary and
    its children.  Attribute values are kept as written in the page; the
    [class] attribute, which BeautifulSoup holds as a list, is split where it
    is matched. *)
#[local] Unset Elimination Schemes.
Inductive node : Type :=
  | NavigableString (s : string)
  | Tag (name : string) (attrs : gmap string string) (contents : list node).
#[local] Set Elimination Schemes.

(** A field of a package record: a plain [str], or the page element that
    [get_first] took out of [contents]. *)
Inductive item_val : Type :=
  | IStr (s : string)
  | INode (n : node).

(** [soup[key]]. *)
Definition Tag_getitem (soup : node) (key : string) : result string :=
  match soup with
  | Tag _ attrs _ =>
      match attrs !! key with
      | Some v => Ok v
      | None => Raise KeyError
      end
  | NavigableString _ => Raise TypeError
  end.

(** Does the tag carry the CSS class [c]? *)
Definition has_class (c : string) (attrs : gmap string string) : bool :=
  match attrs !! "class" with
  | Some v => bool_decide (c ∈ py_split v)
  | None => false
  end.

(** First element, in document order, among [n] and its descendants that
    carries class [c]. *)
Fixpoint find_in (c : string) (n : node) : option node :=
  match n with
  | NavigableString _ => None
  | Tag _ attrs kids =>
      if has_class c attrs then Some n
      else (fix first (l : list node) : option node :=
              match l with
              | [] => None
              | k :: l' =>
                  match find_in c k with
                  | Some r => Some r
                  | None => first l'
                  end
              end) kids
  end.

Fixpoint find_first (c : string) (l : list node) : option node :=
  match l with
  | [] => None
  | k :: l' =>
      match find_in c k with
      | Some r => Some r
      | None => find_first c l'
      end
  end.

(** [soup.find(class_=c)]: the search runs over the descendants of [soup],
    not [soup] itself; [None] when nothing matches. *)
Definition Tag_find (soup : node) (c : string) : result (option node) :=
  match soup with
  | Tag _ _ kids => Ok (find_first c kids)
  | NavigableString _ => Raise TypeError
  end.

(** [x.contents] on what [find] returned. *)
Definition contents_of (found : option node) : result (list node) :=
  match found with
  | Some (Tag _ _ kids) => Ok kids
  | Some (NavigableString _) | None => Raise AttributeError
  end.

(** ** [transform_package] *)

Definition status_mapper : gmap string string :=
  list_to_map
    [ ("status1", "origin");
      ("status2", "air line / ship");
      ("status3", "customs");
      ("status4", "distribution center");
      ("status6", "transit");
      ("status5", "available");
      ("status7", "availableV2") ].

Definition get_first (arr : list node) : item_val :=
  match arr with
  | x :: _ => INode x
  | [] => IStr ""
  end.

(** [soup.find(class_=c).contents], then [get_first]. *)
Definition first_of_class (soup : node) (c : string) : result item_val :=
  found ← Tag_find soup c;
  arr ← contents_of found;
  Ok (get_first arr).

(** The names bound by the [try] block. *)
Record locals : Type := {
  l_status : string;
  l_status_label : string;
  l_condition : item_val;
  l_tracking_number : item_val;
  l_content : item_val;
  l_sender : item_val;
  l_weight : item_val;
}.

(** The [try] block of [transform_package]. *)
Definition try_block (soup : node) : result locals :=
  groups ← Tag_getitem soup "data-groups";
  '(status, status_label) ←
    match py_split groups with
    | [_; status; status_label] => Ok (status, status_label)
    | _ => Raise ValueError
    end;
  condition ← first_of_class soup "packagecondition";
  tracking_number ← first_of_class soup "trackingnumber";
  content ← first_of_class soup "packagecontent";
  sender ← first_of_class soup "packagesender";
  weight ← first_of_class soup "packageweight";
  Ok {| l_status := status; l_status_label := status_label;
        l_condition := condition; l_tracking_number := tracking_number;
        l_content := content; l_sender := sender; l_weight := weight |}.

(** The dictionary built by the final [return]. *)
Definition item_of (l : locals) : gmap string item_val :=
  <["condition" := l_condition l]> (
  <["trackingNumber" := l_tracking_number l]> (
  <["content" := l_content l]> (
  <["sender" := l_sender l]> (
  <["weight" := l_weight l]> (
  <["status" := IStr (l_status l)]> (
  <["statusLabel" := IStr (l_status_label l)]> (
  <["statusFormatted" :=
      IStr (default "na" (status_mapper !! l_status l))]> ∅))))))).

(** ** Process state and the outside world *)

(** A [requests.Response], as far as the module looks at it. *)
Record Response : Type := {
  status_code : Z;
  text : string;
}.

(** [Response.__bool__] is [Response.ok]: false exactly for the client and
    server error statuses, for which [raise_for_status] raises. *)
Definition Response_ok (r : Response) : bool :=
  negb ((400 <=? status_code r)%Z && (status_code r <? 600)%Z).

(** What [CACHE['home']] holds: the initial [''], or a fetched response. *)
Inductive home_val : Type :=
  | EmptyStr
  | Page (r : Response).

(** Truth value of [CACHE['home']] in a condition. *)
Definition truthy (h : home_val) : bool :=
  match h with
  | EmptyStr => false
  | Page r => Response_ok r
  end.

(** [eps_home.text]. *)
Definition text_of (h : home_val) : result string :=
  match h with
  | Page r => Ok (text r)
  | EmptyStr => Raise AttributeError
  end.

Definition URLS_login : string := "https://app.eps-int.com/login".
Definition URLS_home : string := "https://app.eps-int.com/TrackingPaquetes#filter=*".

(** Requests sent to the portal, in order. *)
Inductive request : Type :=
  | POST (url : string)
  | GET (url : string).

#[global] Instance request_eq_dec : EqDecision request.
Proof. solve_decision. Defined.

(** Lines written to standard output. *)
Inductive output : Type :=
  | LogLine (message : string)
  | Traceback (e : exn).

(** The module globals that change, the [lru_cache] table of [get_config],
    and two histories kept for the statements below: the requests sent and
    the lines printed. *)
Record State : Type := {
  CACHE_home : home_val;
  CACHE_last_update : float;
  cookies : gmap string string;
  payload : config_ret * config_ret;
  lru : gmap (string * pyval) config_ret;
  sent : list request;
  stdout : list output;
}.

(** The portal: what a request does to the cookie jar and what it answers;
    [Raise] is a transport failure. *)
Record Portal : Type := {
  on_post : string → config_ret * config_ret → gmap string string →
            result (gmap string string);
  on_get : string → gmap string string →
           result (Response * gmap string string);
}.

(** What one call observes: [datetime.now().timestamp()], the content of
    [config.ini], and the portal. *)
Record Env : Type := {
  now_timestamp : float;
  config_ini : ConfigParser;
  portal : Portal;
}.

(** ** The state-and-exception monad *)

Definition M (A : Type) : Type := State → State * result A.

#[global] Instance M_ret : MRet M := fun A a st => (st, Ok a).
#[global] Instance M_bind : MBind M := fun A B f m st =>
  match m st with
  | (st', Ok a) => f a st'
  | (st', Raise e) => (st', Raise e)
  end.

Definition lift {A} (r : result A) : M A := fun st => (st, r).
Definition gets {A} (f : State → A) : M A := fun st => (st, Ok (f st)).
Definition modify (f : State → State) : M unit := fun st => (f st, Ok tt).
Definition when (b : bool) (m : M unit) : M unit := if b then m else mret tt.

Definition set_home (h : home_val) (st : State) : State :=
  {| CACHE_home := h; CACHE_last_update := CACHE_last_update st;
     cookies := cookies st; payload := payload st; lru := lru st;
     sent := sent st; stdout := stdout st |}.

Definition set_last_update (t : float) (st : State) : State :=
  {| CACHE_home := CACHE_home st; CACHE_last_update := t;
     cookies := cookies st; payload := payload st; lru := lru st;
     sent := sent st; stdout := stdout st |}.

Definition set_cookies (c : gmap string string) (st : State) : State :=
  {| CACHE_home := CACHE_home st; CACHE_last_update := CACHE_last_update st;
     cookies := c; payload := payload st; lru := lru st;
     sent := sent st; stdout := stdout st |}.

Definition set_lru (t : gmap (string * pyval) config_ret) (st : State) : State :=
  {| CACHE_home := CACHE_home st; CACHE_last_update := CACHE_last_update st;
     cookies := cookies st; payload := payload st; lru := t;
     sent := sent st; stdout := stdout st |}.

Definition record_request (r : request) (st : State) : State :=
  {| CACHE_home := CACHE_home st; CACHE_last_update := CACHE_last_update st;
     cookies := cookies st; payload := payload st; lru := lru st;
     sent := sent st ++ [r]; stdout := stdout st |}.

Definition print (o : output) (st : State) : State :=
  {| CACHE_home := CACHE_home st; CACHE_last_update := CACHE_last_update st;
     cookies := cookies st; payload := payload st; lru := lru st;
     sent := sent st; stdout := stdout st ++ [o] |}.

(** ** [get_config] behind [lru_cache] *)

(** A call with arguments already seen returns the stored value without
    running the body; a body that returns is stored, one that raises is not. *)
Definition get_config (ini : ConfigParser)
    (_section_config : string) (_default : pyval) : M config_ret := fun st =>
  match lru st !! (_section_config, _default) with
  | Some r => (st, Ok r)
  | None =>
      match get_config_body ini _section_config _default with
      | Ok r => (set_lru (<[(_section_config, _default) := r]> (lru st)) st, Ok r)
      | Raise e => (st, Raise e)
      end
  end.

(** ** Session *)

(** [is_logged_in]. *)
Definition is_logged_in : M bool :=
  gets (fun st => bool_decide (is_Some (cookies st !! "WebSite_autologin"))).

(** [login]: one POST with the stored payload; the session keeps the cookies
    the portal sets. *)
Definition login (env : Env) : M unit :=
  modify (record_request (POST URLS_login));;
  pl ← gets payload;
  jar ← gets cookies;
  jar' ← lift (on_post (portal env) URLS_login pl jar);
  modify (set_cookies jar').

(** [session.get(url)]. *)
Definition session_get (env : Env) (url : string) : M Response :=
  modify (record_request (GET url));;
  jar ← gets cookies;
  '(r, jar') ← lift (on_get (portal env) url jar);
  modify (set_cookies jar');;
  mret r.

(** [log]. *)
Definition log (message : string) : M unit := modify (print (LogLine message)).

(** ** [transform_package] with its [except] clause *)

Definition transform_package (soup : node) : M (gmap string item_val) := fun st =>
  match try_block soup with
  | Ok l => (st, Ok (item_of l))
  | Raise e => (print (Traceback e) st, Ok ∅)
  end.

(** ** Constants *)

(** Values stored in a response dictionary. *)
Inductive value : Type :=
  | VList (items : list (gmap string item_val))
  | VBool (b : bool).

Definition INITIAL_STATE : gmap string value := {[ "items" := VList [] ]}.

(** [float(n)] for an [int]: nearest binary64, [OverflowError] beyond its range. *)
Definition float_of_int (z : Z) : result float :=
  let f := SF2Prim (binary_normalize prec emax z 0 false) in
  if PrimFloat.is_infinity f then Raise OverflowError else Ok f.

(** ** [get_packages] *)

Section GetPackages.

(** [float(s)] for a [str]: [None] where Python raises [ValueError]. *)
Variable float_of_str : string → option float.

(** [BeautifulSoup(text, 'html.parser').select('#fTrackingPaquetes [data-groups]')]. *)
Variable select_packages : string → list node.

(** [float(x)] for what [get_config] returned. *)
Definition py_float (x : config_ret) : result float :=
  match x with
  | Setting (PInt z) => float_of_int z
  | Setting (PStr s) =>
      match float_of_str s with
      | Some f => Ok f
      | None => Raise ValueError
      end
  | Parser _ => Raise TypeError
  end.

(** [float(get_config('server.cache', 30))]. *)
Definition server_cache_of (env : Env) : M float :=
  x ← get_config (config_ini env) "server.cache" (PInt 30);
  lift (py_float x).

(** [abs(CACHE['last_update'] - epoch) / 60]. *)
Definition elapsed_minutes (last_update epoch : float) : float :=
  PrimFloat.div (PrimFloat.abs (PrimFloat.sub last_update epoch)) 60%float.

(** [epoch_difference_to_minutes > server_cache]. *)
Definition expired (last_update epoch server_cache : float) : bool :=
  PrimFloat.ltb server_cache (elapsed_minutes last_update epoch).

(** The [else] branch of "fetch home": log in, fetch, store. *)
Definition fetch_direct (env : Env) : M home_val :=
  let epoch := now_timestamp env in
  log "CACHE: DIRECT";;
  login env;;
  eps_home ← session_get env URLS_home;
  modify (set_home (Page eps_home));;
  modify (set_last_update epoch);;
  mret (Page eps_home).

(** The first half of [get_packages], up to and including "fetch home":
    returns [eps_home]. *)
Definition cache_phase (use_cache : bool) (env : Env) : M home_val :=
  let epoch := now_timestamp env in
  server_cache ← server_cache_of env;
  last_update ← gets CACHE_last_update;
  let clear := expired last_update epoch server_cache in
  when clear (modify (set_last_update epoch));;
  when (clear && use_cache) (modify (set_home EmptyStr));;
  home ← gets CACHE_home;
  if truthy home && use_cache then
    log "CACHE: CACHE";;
    mret home
  else fetch_direct env.

(** The second half: the login guard, parsing, and the response. *)
Definition respond (eps_home : home_val) : M (gmap string value) :=
  logged ← is_logged_in;
  if negb logged then mret INITIAL_STATE
  else
    page_text ← lift (text_of eps_home);
    let soup_packages := select_packages page_text in
    package_list ← mapM transform_package soup_packages;
    logged_in ← is_logged_in;
    mret (<["items" := VList package_list]> (
          <["logged_in" := VBool logged_in]> ∅)).

Definition get_packages (use_cache : bool) (env : Env) : M (gmap string value) :=
  eps_home ← cache_phase use_cache env;
  respond eps_home.

(** ** Routes *)

(** [GET /]. *)
Definition packages (env : Env) : M (gmap string value) := get_packages true env.

(** [GET /now]. *)
Definition now (env : Env) : M (gmap string value) := get_packages false env.

End GetPackages.

(** [GET /clear]. *)
Definition clear : M string :=
  modify (set_home EmptyStr);;
  mret "OK".

(** ** Module import *)

(** The state after the top-level statements have run: both credentials read
    through [get_config], an empty session, the initial [CACHE].  Import
    fails when either lookup raises. *)
Definition import_main (ini : ConfigParser) : result State :=
  let st0 := {| CACHE_home := EmptyStr; CACHE_last_update := 0%float;
                cookies := ∅; payload := (Setting (PStr ""), Setting (PStr ""));
                lru := ∅; sent := []; stdout := [] |} in
  match get_config ini "user.name" (PStr "") st0 with
  | (_, Raise e) => Raise e
  | (st1, Ok username) =>
      match get_config ini "user.password" (PStr "") st1 with
      | (_, Raise e) => Raise e
      | (st2, Ok password) =>
          Ok {| CACHE_home := EmptyStr; CACHE_last_update := 0%float;
                cookies := ∅; payload := (username, password);
                lru := lru st2; sent := []; stdout := [] |}
      end
  end.

(** ** Derived views used in the statements *)

(** The dictionary [transform_package] returns for [soup]; it does not depend
    on the state. *)
Definition package_of (soup : node) : gmap string item_val :=
  match try_block soup with
  | Ok l => item_of l
  | Raise _ => ∅
  end.

(** [soup.find(class_=c)] finds a tag whose first child is [x]. *)
Definition has_cell (soup : node) (c : string) (x : node) : Prop :=
  ∃ name attrs rest, Tag_find soup c = Ok (Some (Tag name attrs (x :: rest))).

(** The classes [transform_package] looks up. *)
Definition required_classes : list string :=
  ["packagecondition"; "trackingnumber"; "packagecontent"; "packagesender";
   "packageweight"].

(** [st'] is [st] with some more lines printed. *)
Definition same_but_stdout (st st' : State) : Prop :=
  CACHE_home st' = CACHE_home st ∧
  CACHE_last_update st' = CACHE_last_update st ∧
  cookies st' = cookies st ∧
  payload st' = payload st ∧
  lru st' = lru st ∧
  sent st' = sent st ∧
  ∃ out, stdout st' = stdout st ++ out.

(** The call at [env] falls within the cache window: the configured duration
    can be read and the elapsed minutes do not exceed it. *)
Definition within_window (float_of_str : string → option float)
    (env : Env) (st : State) : Prop :=
  ∃ st0 server_cache,
    server_cache_of float_of_str env st = (st0, Ok server_cache) ∧
    expired (CACHE_last_update st) (now_timestamp env) server_cache = false.

(** Two [GET /] calls, the first of which fetched and the second of which
    falls within the window, send one login and one fetch between them. *)
Definition one_fetch_for_two_calls (float_of_str : string → option float)
    (select_packages : string → list node) (env1 env2 : Env) (st : State) : Prop :=
  ∀ st1 r1,
    packages float_of_str select_packages env1 st = (st1, Ok r1) →
    sent st1 = sent st ++ [POST URLS_login; GET URLS_home] →
    within_window float_of_str env2 st1 →
    ∃ st2 r2,
      packages float_of_str select_packages env2 st1 = (st2, Ok r2) ∧
      sent st2 = sent st ++ [POST URLS_login; GET URLS_home].

(** ** Sample data *)

(** A stand-in for [float] on strings, defined on unsigned decimal integers. *)
Fixpoint digits_value (acc : Z) (s : string) : option Z :=
  match s with
  | "" => Some acc
  | String c s' =>
      match Ascii.is_nat c with
      | Some d => digits_value (10 * acc + Z.of_nat d) s'
      | None => None
      end
  end.

Definition float_of_digits (s : string) : option float :=
  match s with
  | "" => None
  | _ =>
      z ← digits_value 0 s;
      match float_of_int z with
      | Ok f => Some f
      | Raise _ => None
      end
  end.

Definition leaf (class body : string) : node :=
  Tag "td" {[ "class" := class ]} [NavigableString body].

(** A complete row, a row whose weight cell is missing, and a row whose
    [data-groups] has two tokens. *)
Definition row_ok : node :=
  Tag "tr" {[ "data-groups" := "all status5 Disponible" ]}
    [ leaf "packagecondition" "OK";
      leaf "col trackingnumber" "EPS123";
      leaf "packagecontent" "Books";
      leaf "packagesender" "ACME";
      leaf "packageweight" "2.5" ].

Definition row_no_weight : node :=
  Tag "tr" {[ "data-groups" := "all status5 Disponible" ]}
    [ leaf "packagecondition" "OK";
      leaf "trackingnumber" "EPS124";
      leaf "packagecontent" "Shoes";
      leaf "packagesender" "ACME" ].

Definition row_two_tokens : node :=
  Tag "tr" {[ "data-groups" := "all status5" ]}
    [ leaf "packagecondition" "OK";
      leaf "trackingnumber" "EPS125";
      leaf "packagecontent" "Pens";
      leaf "packagesender" "ACME";
      leaf "packageweight" "0.1" ].

Definition row_unknown_status : node :=
  Tag "tr" {[ "data-groups" := "all status9 Perdido" ]}
    [ leaf "packagecondition" "OK";
      leaf "trackingnumber" "EPS126";
      leaf "packagecontent" "Lamp";
      leaf "packagesender" "ACME";
      leaf "packageweight" "1.0" ].

Definition sample_select (page_text : string) : list node :=
  if decide (page_text = "dashboard") then [row_ok; row_no_weight; row_two_tokens]
  else [].

Definition ini_sample : ConfigParser :=
  {| _defaults := ∅;
     _sections :=
       {[ "user" := {[ "name" := "alice"; "password" := "secret" ]};
          "server" := {[ "cache" := "30" ]} ]} |}.

(** A file with a [server] section only. *)
Definition ini_no_user : ConfigParser :=
  {| _defaults := ∅;
     _sections := {[ "server" := {[ "cache" := "30" ]} ]} |}.

(** A file with a [user] section only. *)
Definition ini_user_only : ConfigParser :=
  {| _defaults := ∅;
     _sections := {[ "user" := {[ "name" := "alice" ]} ]} |}.

Definition page_200 : Response := {| status_code := 200; text := "dashboard" |}.
Definition page_503 : Response := {| status_code := 503; text := "unavailable" |}.

(** A portal that accepts the login and serves [page]. *)
Definition portal_serving (page : Response) : Portal :=
  {| on_post := fun _ _ jar => Ok (<["WebSite_autologin" := "token"]> jar);
     on_get := fun _ jar => Ok (page, jar) |}.

(** A portal that serves the page but never sets the login cookie. *)
Definition portal_rejecting : Portal :=
  {| on_post := fun _ _ jar => Ok jar;
     on_get := fun _ jar => Ok (page_200, jar) |}.

Definition env_at (t : float) (p : Portal) : Env :=
  {| now_timestamp := t; config_ini := ini_sample; portal := p |}.

(** The state right after import with [ini_sample]. *)
Definition st_boot : State :=
  {| CACHE_home := EmptyStr; CACHE_last_update := 0%float; cookies := ∅;
     payload := (Setting (PStr "alice"), Setting (PStr "secret"));
     lru := {[ ("user.name", PStr "") := Setting (PStr "alice");
               ("user.password", PStr "") := Setting (PStr "secret") ]};
     sent := []; stdout := [] |}.

(** A later state: logged in, a page cached at time 1700000000. *)
Definition st_warm : State :=
  {| CACHE_home := Page page_200; CACHE_last_update := 1700000000%float;
     cookies := {[ "WebSite_autologin" := "token" ]};
     payload := (Setting (PStr "alice"), Setting (PStr "secret"));
     lru := {[ ("user.name", PStr "") := Setting (PStr "alice");
               ("user.password", PStr "") := Setting (PStr "secret") ]};
     sent := [POST URLS_login; GET URLS_home]; stdout := [] |}.

(** More sample data: a portal that cannot be reached, a row whose weight
    cell is empty, and a state holding a page cached while logged out. *)
Definition portal_down : Portal :=
  {| on_post := fun _ _ _ => Raise RequestException;
     on_get := fun _ _ => Raise RequestException |}.

Definition row_empty_weight : node :=
  Tag "tr" {[ "data-groups" := "all status2 Transito" ]}
    [ leaf "packagecondition" "OK";
      leaf "trackingnumber" "EPS127";
      leaf "packagecontent" "Toys";
      leaf "packagesender" "ACME";
      Tag "td" {[ "class" := "packageweight" ]} [] ].

Definition st_logged_out : State :=
  {| CACHE_home := Page page_200; CACHE_last_update := 1700000000%float;
     cookies := ∅;
     payload := (Setting (PStr "alice"), Setting (PStr "secret"));
     lru := {[ ("user.name", PStr "") := Setting (PStr "alice");
               ("user.password", PStr "") := Setting (PStr "secret") ]};
     sent := [POST URLS_login; GET URLS_home]; stdout := [] |}.

(** [soup.find(class_=c)] finds a tag whose children are [kids]. *)
Definition has_cell_with (soup : node) (c : string) (kids : list node) : Prop :=
  ∃ name attrs, Tag_find soup c = Ok (Some (Tag name attrs kids)).

(** The status codes of [status_mapper]. *)
Definition known_statuses : list string :=
  ["status1"; "status2"; "status3"; "status4"; "status6"; "status5"; "status7"].

(** Does the string contain a character of [str.isspace]? *)
Fixpoint has_space (s : string) : bool :=
  match s with
  | "" => false
  | String c s' => py_isspace c || has_space s'
  end.

(** The keys of a package record. *)
Definition item_keys : gset string :=
  {[ "condition"; "trackingNumber"; "content"; "sender"; "weight";
     "status"; "statusLabel"; "statusFormatted" ]}.

(** * Properties *)

(** ** Sanity checks of the embedding on the sample data *)

Example import_sample : import_main ini_sample = Ok st_boot.
Proof. vm_compute. reflexivity. Qed.

Example split_three : py_split "  all  status5 Disponible " = ["all"; "status5"; "Disponible"].
Proof. reflexivity. Qed.

Example split_section_option : py_split_on "." "server.cache" = ["server"; "cache"].
Proof. reflexivity. Qed.

Example lower_option : py_lower "Cache" = "cache".
Proof. reflexivity. Qed.

Example package_of_row_ok :
  package_of row_ok !! "statusFormatted" = Some (IStr "available") ∧
  package_of row_ok !! "trackingNumber" = Some (INode (NavigableString "EPS123")).
Proof. split; vm_compute; reflexivity. Qed.

Example half_hour_is_not_expired :
  expired 1700000000 1700001800 30 = false ∧ expired 1700000000 1700001801 30 = true.
Proof. split; reflexivity. Qed.

(** ** Running the monad *)

Lemma bind_ok {A B} (m : M A) (f : A → M B) st st' a :
  m st = (st', Ok a) → (m ≫= f) st = f a st'.
Proof. intros H. unfold mbind, M_bind. by rewrite H. Qed.

Lemma bind_raise {A B} (m : M A) (f : A → M B) st st' e :
  m st = (st', Raise e) → (m ≫= f) st = (st', Raise e).
Proof. intros H. unfold mbind, M_bind. by rewrite H. Qed.

Lemma same_but_stdout_refl st : same_but_stdout st st.
Proof. repeat split. exists []. by rewrite app_nil_r. Qed.

Lemma same_but_stdout_trans st1 st2 st3 :
  same_but_stdout st1 st2 → same_but_stdout st2 st3 → same_but_stdout st1 st3.
Proof.
  unfold same_but_stdout.
  intros (?&?&?&?&?&?&out1&Ho1) (?&?&?&?&?&?&out2&Ho2).
  repeat split; try congruence.
  exists (out1 ++ out2). by rewrite Ho2, Ho1, app_assoc.
Qed.

Lemma transform_package_run soup st :
  ∃ st', transform_package soup st = (st', Ok (package_of soup)) ∧
         same_but_stdout st st'.
Proof.
  unfold transform_package, package_of.
  destruct (try_block soup) as [l|e]; eexists; (split; [reflexivity|]);
    repeat split; try done.
  - exists []. by rewrite app_nil_r.
  - by eexists.
Qed.

Lemma mapM_transform_package_run l st :
  ∃ st', mapM transform_package l st = (st', Ok (package_of <$> l)) ∧
         same_but_stdout st st'.
Proof.
  revert st. induction l as [|soup l IH]; intros st.
  - exists st. split; [reflexivity|]. apply same_but_stdout_refl.
  - destruct (transform_package_run soup st) as (st1 & H1 & F1).
    destruct (IH st1) as (st2 & H2 & F2).
    exists st2. split; [|by eapply same_but_stdout_trans].
    cbn [mapM]. rewrite (bind_ok _ _ _ _ _ H1).
    change (mapM transform_package l) with (mapM transform_package l) in H2.
    rewrite (bind_ok _ _ _ _ _ H2). reflexivity.
Qed.

(** ** [transform_package] *)

Lemma first_of_class_cell soup c x :
  has_cell soup c x → first_of_class soup c = Ok (INode x).
Proof.
  intros (name & attrs & rest & H). unfold first_of_class. by rewrite H.
Qed.

(** C1. A row whose [data-groups] has exactly three tokens and whose five
    cells are present with at least one child each is turned into a record
    with exactly the eight fields: the five cells' first children, the second
    and third token as [status] and [statusLabel], and [statusFormatted] read
    from the seven-entry table, ['na'] outside it. *)
Theorem transform_package_complete (soup : node) (st : State)
    (groups prefix status status_label : string)
    (condition tracking_number content sender weight : node) :
  Tag_getitem soup "data-groups" = Ok groups →
  py_split groups = [prefix; status; status_label] →
  has_cell soup "packagecondition" condition →
  has_cell soup "trackingnumber" tracking_number →
  has_cell soup "packagecontent" content →
  has_cell soup "packagesender" sender →
  has_cell soup "packageweight" weight →
  ∃ item : gmap string item_val,
    transform_package soup st = (st, Ok item) ∧
    dom item = {[ "condition"; "trackingNumber"; "content"; "sender"; "weight";
                  "status"; "statusLabel"; "statusFormatted" ]} ∧
    item !! "condition" = Some (INode condition) ∧
    item !! "trackingNumber" = Some (INode tracking_number) ∧
    item !! "content" = Some (INode content) ∧
    item !! "sender" = Some (INode sender) ∧
    item !! "weight" = Some (INode weight) ∧
    item !! "status" = Some (IStr status) ∧
    item !! "statusLabel" = Some (IStr status_label) ∧
    item !! "statusFormatted" =
      Some (IStr (default "na"
        (list_to_map (M := gmap string string)
           [ ("status1", "origin"); ("status2", "air line / ship");
             ("status3", "customs"); ("status4", "distribution center");
             ("status5", "available"); ("status6", "transit");
             ("status7", "availableV2") ] !! status))).
Proof.
  intros Hg Hs H1 H2 H3 H4 H5.
  eexists. split.
  - unfold transform_package, try_block. rewrite Hg. cbn. rewrite Hs. cbn.
    rewrite (first_of_class_cell _ _ _ H1). cbn.
    rewrite (first_of_class_cell _ _ _ H2). cbn.
    rewrite (first_of_class_cell _ _ _ H3). cbn.
    rewrite (first_of_class_cell _ _ _ H4). cbn.
    rewrite (first_of_class_cell _ _ _ H5). cbn.
    reflexivity.
  - unfold item_of. cbn [l_status l_status_label l_condition l_tracking_number
      l_content l_sender l_weight].
    split.
    { rewrite !dom_insert_L, dom_empty_L. set_solver. }
    repeat split; by simplify_map_eq.
Qed.

Lemma transform_package_complete_witness :
  ∃ item : gmap string item_val,
    transform_package row_ok st_boot = (st_boot, Ok item) ∧
    item !! "statusFormatted" = Some (IStr "available").
Proof.
  destruct (transform_package_complete row_ok st_boot
              "all status5 Disponible" "all" "status5" "Disponible"
              (NavigableString "OK") (NavigableString "EPS123")
              (NavigableString "Books") (NavigableString "ACME")
              (NavigableString "2.5"))
    as (item & Hrun & _ & _ & _ & _ & _ & _ & _ & _ & Hfmt).
  - reflexivity.
  - reflexivity.
  - exists "td", {[ "class" := "packagecondition" ]}, []. vm_compute. reflexivity.
  - exists "td", {[ "class" := "col trackingnumber" ]}, []. vm_compute. reflexivity.
  - exists "td", {[ "class" := "packagecontent" ]}, []. vm_compute. reflexivity.
  - exists "td", {[ "class" := "packagesender" ]}, []. vm_compute. reflexivity.
  - exists "td", {[ "class" := "packageweight" ]}, []. vm_compute. reflexivity.
  - exists item. split; [exact Hrun | exact Hfmt].
Defined.

Lemma try_block_missing_cell soup c :
  c ∈ required_classes → Tag_find soup c = Ok None →
  ∃ e, try_block soup = Raise e.
Proof.
  intros Hc Hf.
  assert (Hr : first_of_class soup c = Raise AttributeError).
  { unfold first_of_class. by rewrite Hf. }
  unfold try_block.
  destruct (Tag_getitem soup "data-groups") as [groups|e0]; cbn; [|eauto].
  destruct (py_split groups) as [|? [|? [|? [|? ?]]]]; cbn; eauto.
  unfold required_classes in Hc.
  repeat (apply elem_of_cons in Hc as [->|Hc]);
    try (by apply elem_of_nil in Hc);
    repeat match goal with
    | |- context [first_of_class soup ?k] =>
        destruct (first_of_class soup k) eqn:?; cbn; eauto; try congruence
    end.
Qed.

Lemma try_block_bad_groups soup groups :
  Tag_getitem soup "data-groups" = Ok groups →
  length (py_split groups) ≠ 3 →
  try_block soup = Raise ValueError.
Proof.
  intros Hg Hn. unfold try_block. rewrite Hg. cbn.
  destruct (py_split groups) as [|? [|? [|? [|? ?]]]]; cbn in *; done.
Qed.

(** ** [get_config] *)

Lemma ConfigParser_get_no_section config section option :
  _sections config !! section = None → section ≠ default_section →
  ConfigParser_get config section option = Raise NoSectionError.
Proof.
  intros Hs Hd. unfold ConfigParser_get. rewrite Hs. by case_decide.
Qed.

Lemma get_config_body_needs_user ini sc d :
  _sections ini !! "user" = None → get_config_body ini sc d = Raise KeyError.
Proof.
  intros Hu. unfold get_config_body.
  assert (Hn : config_get ini "user.name" (PStr "") = Ok (PStr "")).
  { unfold config_get.
    change (py_split_on "." "user.name") with ["user"; "name"].
    cbv beta iota.
    by rewrite ConfigParser_get_no_section. }
  rewrite Hn. unfold ConfigParser_setitem.
  destruct (decide ("user" = default_section)) as [?|_]; [done|].
  by rewrite Hu.
Qed.

Lemma result_bind_ok {A B} (a : A) (f : A → result B) : (Ok a ≫= f) = f a.
Proof. reflexivity. Qed.





(** With a [user] section but no [server] section the default comes back;
    a default supplied for a missing credential does not, because the
    credential has been written into the parser as [''] by then. *)
Example server_cache_default :
  get_config_body ini_user_only "server.cache" (PInt 30) = Ok (Setting (PInt 30)).
Proof. vm_compute. reflexivity. Qed.

Example password_default_is_empty :
  get_config_body ini_user_only "user.password" (PStr "hunter2") = Ok (Setting (PStr "")).
Proof. vm_compute. reflexivity. Qed.

(** C6. With no [user] section in [config.ini], every lookup that is not
    already memoized raises [KeyError], whatever default was supplied. *)
Theorem get_config_without_user_section (ini : ConfigParser) (st : State)
    (_section_config : string) (_default : pyval) :
  _sections ini !! "user" = None →
  lru st !! (_section_config, _default) = None →
  get_config ini _section_config _default st = (st, Raise KeyError).
Proof.
  intros Hu Hm. unfold get_config. rewrite Hm.
  by rewrite get_config_body_needs_user.
Qed.

Lemma get_config_without_user_section_witness :
  get_config ini_no_user "server.cache" (PInt 30) st_boot = (st_boot, Raise KeyError) ∧
  import_main ini_no_user = Raise KeyError.
Proof.
  split.
  - apply (get_config_without_user_section ini_no_user st_boot "server.cache" (PInt 30));
      vm_compute; reflexivity.
  - vm_compute. reflexivity.
Defined.

(** ** [clear] *)

(** C8. [/clear] empties [CACHE['home']], returns ['OK'], and leaves the
    timestamp and everything else as it was. *)
Theorem clear_resets_only_home (st : State) :
  clear st = (set_home EmptyStr st, Ok "OK") ∧
  CACHE_home (fst (clear st)) = EmptyStr ∧
  CACHE_last_update (fst (clear st)) = CACHE_last_update st ∧
  cookies (fst (clear st)) = cookies st ∧
  payload (fst (clear st)) = payload st ∧
  lru (fst (clear st)) = lru st ∧
  sent (fst (clear st)) = sent st ∧
  stdout (fst (clear st)) = stdout st.
Proof. by repeat split. Qed.

(** ** [get_packages] *)

Section GetPackagesFacts.

Variable pf : string → option float.
Variable sel : string → list node.

(** [float(get_config('server.cache', 30))] touches the memo table only. *)
Lemma server_cache_of_frame env st st0 r :
  server_cache_of pf env st = (st0, r) →
  CACHE_home st0 = CACHE_home st ∧
  CACHE_last_update st0 = CACHE_last_update st ∧
  cookies st0 = cookies st ∧
  payload st0 = payload st ∧
  sent st0 = sent st ∧
  stdout st0 = stdout st.
Proof.
  unfold server_cache_of, get_config, lift, mbind, M_bind.
  destruct (lru st !! _) as [x|].
  - intros [= <- _]. by repeat split.
  - destruct (get_config_body _ _ _) as [x|e]; intros [= <- _]; by repeat split.
Qed.

(** The fetch branch, spelled out on the portal's answers. *)
Lemma fetch_direct_run env st :
  fetch_direct env st =
    let st1 := record_request (POST URLS_login) (print (LogLine "CACHE: DIRECT") st) in
    match on_post (portal env) URLS_login (payload st) (cookies st) with
    | Raise e => (st1, Raise e)
    | Ok jar1 =>
        let st2 := record_request (GET URLS_home) (set_cookies jar1 st1) in
        match on_get (portal env) URLS_home jar1 with
        | Raise e => (st2, Raise e)
        | Ok (page, jar2) =>
            (set_last_update (now_timestamp env)
               (set_home (Page page) (set_cookies jar2 st2)), Ok (Page page))
        end
    end.
Proof.
  unfold fetch_direct, login, session_get, log, modify, gets, lift, mbind, M_bind,
    mret, M_ret.
  cbn.
  destruct (on_post _ _ _ _) as [jar1|e]; [|reflexivity]. cbn.
  destruct (on_get _ _ _) as [[page jar2]|e]; reflexivity.
Qed.

(** The first half of [get_packages], once the cache duration is known. *)
Lemma cache_phase_run use_cache env st st0 sc :
  server_cache_of pf env st = (st0, Ok sc) →
  cache_phase pf use_cache env st =
    let epoch := now_timestamp env in
    let clear := expired (CACHE_last_update st0) epoch sc in
    let st1 := if clear then set_last_update epoch st0 else st0 in
    let st2 := if clear && use_cache then set_home EmptyStr st1 else st1 in
    if truthy (CACHE_home st2) && use_cache
    then (print (LogLine "CACHE: CACHE") st2, Ok (CACHE_home st2))
    else fetch_direct env st2.
Proof.
  intros Hsc. unfold cache_phase.
  rewrite (bind_ok _ _ _ _ _ Hsc).
  unfold when, log, modify, gets, mbind, M_bind, mret, M_ret.
  destruct (expired _ _ _), use_cache; cbn;
    repeat match goal with
    | |- context [truthy ?h] => destruct (truthy h)
    end; reflexivity.
Qed.

Lemma cache_phase_raise use_cache env st st0 e :
  server_cache_of pf env st = (st0, Raise e) →
  cache_phase pf use_cache env st = (st0, Raise e).
Proof. intros H. unfold cache_phase. by rewrite (bind_raise _ _ _ _ _ H). Qed.

(** The second half of [get_packages]. *)
Lemma respond_logged_out eps_home st :
  cookies st !! "WebSite_autologin" = None →
  respond sel eps_home st = (st, Ok INITIAL_STATE).
Proof.
  intros H. unfold respond, is_logged_in, gets, mbind, M_bind.
  rewrite H. reflexivity.
Qed.

Lemma respond_logged_in eps_home st page_text :
  is_Some (cookies st !! "WebSite_autologin") →
  text_of eps_home = Ok page_text →
  ∃ st', respond sel eps_home st =
           (st', Ok (<["items" := VList (package_of <$> sel page_text)]> (
                     <["logged_in" := VBool true]> ∅))) ∧
         same_but_stdout st st'.
Proof.
  intros Hin Ht.
  destruct (mapM_transform_package_run (sel page_text) st) as (st' & Hrun & Hfr).
  exists st'. split; [|done].
  unfold respond, is_logged_in, gets, lift, mbind, M_bind.
  rewrite (bool_decide_eq_true_2 _ Hin). cbn. rewrite Ht.
  unfold mbind, M_bind in Hrun |- *. rewrite Hrun.
  destruct Hfr as (_ & _ & -> & _).
  by rewrite (bool_decide_eq_true_2 _ Hin).
Qed.

Lemma respond_no_page st :
  is_Some (cookies st !! "WebSite_autologin") →
  respond sel EmptyStr st = (st, Raise AttributeError).
Proof.
  intros Hin. unfold respond, is_logged_in, gets, lift, mbind, M_bind.
  by rewrite (bool_decide_eq_true_2 _ Hin).
Qed.

Lemma respond_frame eps_home st :
  same_but_stdout st (fst (respond sel eps_home st)).
Proof.
  destruct (cookies st !! "WebSite_autologin") as [c|] eqn:Hc.
  - destruct eps_home as [|r].
    + rewrite respond_no_page by (rewrite Hc; eauto). apply same_but_stdout_refl.
    + destruct (respond_logged_in (Page r) st (text r)) as (st' & -> & Hfr);
        [rewrite Hc; eauto|done|done].
  - rewrite respond_logged_out by done. apply same_but_stdout_refl.
Qed.

(** What [respond] returns depends on the cookie jar and the page only. *)
Lemma respond_result eps_home st1 st2 :
  cookies st1 = cookies st2 →
  snd (respond sel eps_home st1) = snd (respond sel eps_home st2).
Proof.
  intros Hc.
  destruct (cookies st1 !! "WebSite_autologin") as [c|] eqn:H1.
  - assert (H2 : is_Some (cookies st2 !! "WebSite_autologin"))
      by (rewrite <- Hc, H1; eauto).
    assert (H1' : is_Some (cookies st1 !! "WebSite_autologin"))
      by (rewrite H1; eauto).
    destruct eps_home as [|r].
    + by rewrite !respond_no_page.
    + destruct (respond_logged_in (Page r) st1 (text r)) as (? & -> & _); [done..|].
      destruct (respond_logged_in (Page r) st2 (text r)) as (? & -> & _); done.
  - rewrite !respond_logged_out; [done| by rewrite <- Hc |done].
Qed.

Lemma get_packages_run use_cache env st st1 eps_home :
  cache_phase pf use_cache env st = (st1, Ok eps_home) →
  get_packages pf sel use_cache env st = respond sel eps_home st1.
Proof. intros H. unfold get_packages. by rewrite (bind_ok _ _ _ _ _ H). Qed.

Lemma get_packages_raise use_cache env st st1 e :
  cache_phase pf use_cache env st = (st1, Raise e) →
  get_packages pf sel use_cache env st = (st1, Raise e).
Proof. intros H. unfold get_packages. by rewrite (bind_raise _ _ _ _ _ H). Qed.

(** C3. When the cookie check fails after the cache/fetch phase, the call
    returns the initial state [{items: []}], which has no [logged_in] key,
    whether or not a page was fetched. *)
Theorem get_packages_logged_out (use_cache : bool) (env : Env)
    (st st1 : State) (eps_home : home_val) :
  cache_phase pf use_cache env st = (st1, Ok eps_home) →
  is_logged_in st1 = (st1, Ok false) →
  get_packages pf sel use_cache env st = (st1, Ok INITIAL_STATE) ∧
  INITIAL_STATE = {[ "items" := VList [] ]} ∧
  INITIAL_STATE !! "logged_in" = None.
Proof.
  intros Hphase Hout. split; [|done].
  rewrite (get_packages_run _ _ _ _ _ Hphase).
  apply respond_logged_out.
  unfold is_logged_in, gets in Hout.
  injection Hout as Hout. apply bool_decide_eq_false_1 in Hout.
  by apply eq_None_not_Some.
Qed.

(** C9. A returned dictionary that has the key [logged_in] has it at [True]. *)
Theorem logged_in_key_is_true (use_cache : bool) (env : Env)
    (st st' : State) (r : gmap string value) (v : value) :
  get_packages pf sel use_cache env st = (st', Ok r) →
  r !! "logged_in" = Some v →
  v = VBool true.
Proof.
  intros Hrun Hkey.
  destruct (cache_phase pf use_cache env st) as [st1 [eps_home|e]] eqn:Hphase.
  2: { rewrite (get_packages_raise _ _ _ _ _ Hphase) in Hrun. congruence. }
  rewrite (get_packages_run _ _ _ _ _ Hphase) in Hrun.
  destruct (cookies st1 !! "WebSite_autologin") as [c|] eqn:Hc.
  - assert (Hin : is_Some (cookies st1 !! "WebSite_autologin")) by (rewrite Hc; eauto).
    destruct eps_home as [|page].
    + rewrite respond_no_page in Hrun by done. congruence.
    + destruct (respond_logged_in (Page page) st1 (text page) Hin eq_refl)
        as (st2 & Hr & _).
      rewrite Hr in Hrun. injection Hrun as _ <-.
      rewrite lookup_insert_ne, lookup_insert_eq in Hkey by done. congruence.
  - rewrite respond_logged_out in Hrun by done.
    injection Hrun as _ <-. done.
Qed.

(** C2. [transform_package] returns for every node: a node whose extraction
    raises (a required cell is missing, or [data-groups] does not split into
    three tokens) yields the empty record, and [get_packages] keeps that
    record at the node's position in [items]. *)
Theorem transform_package_never_raises (soup : node) (st : State) :
  (∃ st', transform_package soup st = (st', Ok (package_of soup))) ∧
  (∀ e, try_block soup = Raise e →
        transform_package soup st = (print (Traceback e) st, Ok ∅)) ∧
  (∀ c, c ∈ required_classes → Tag_find soup c = Ok None →
        ∃ e, try_block soup = Raise e) ∧
  (∀ groups, Tag_getitem soup "data-groups" = Ok groups →
             length (py_split groups) ≠ 3 →
             try_block soup = Raise ValueError) ∧
  (∀ use_cache env st0 st1 eps_home page_text i,
     cache_phase pf use_cache env st0 = (st1, Ok eps_home) →
     is_Some (cookies st1 !! "WebSite_autologin") →
     text_of eps_home = Ok page_text →
     sel page_text !! i = Some soup →
     ∃ st2 items,
       get_packages pf sel use_cache env st0 =
         (st2, Ok (<["items" := VList items]> (<["logged_in" := VBool true]> ∅))) ∧
       length items = length (sel page_text) ∧
       items !! i = Some (package_of soup) ∧
       ((∃ e, try_block soup = Raise e) → items !! i = Some ∅)).
Proof.
  split; [|split; [|split; [|split]]].
  - destruct (transform_package_run soup st) as (st' & H & _). eauto.
  - intros e He. unfold transform_package. by rewrite He.
  - apply try_block_missing_cell.
  - apply try_block_bad_groups.
  - intros use_cache env st0 st1 eps_home page_text i Hphase Hin Ht Hi.
    destruct (respond_logged_in eps_home st1 page_text Hin Ht) as (st2 & Hr & _).
    exists st2, (package_of <$> sel page_text).
    rewrite (get_packages_run _ _ _ _ _ Hphase).
    split; [exact Hr|]. split; [by rewrite length_fmap|].
    assert (Hitem : (package_of <$> sel page_text) !! i = Some (package_of soup)).
    { by rewrite list_lookup_fmap, Hi. }
    split; [exact Hitem|].
    intros [e He]. rewrite Hitem. unfold package_of. by rewrite He.
Qed.

(** What a call that reaches the fetch branch from [st2] leaves behind. *)
Lemma get_packages_after_fetch use_cache env st st2 st' r :
  cache_phase pf use_cache env st = fetch_direct env st2 →
  get_packages pf sel use_cache env st = (st', r) →
  (∃ rest, sent st' = sent st2 ++ POST URLS_login :: rest) ∧
  (∃ out, stdout st' = stdout st2 ++ LogLine "CACHE: DIRECT" :: out) ∧
  lru st' = lru st2 ∧
  match on_post (portal env) URLS_login (payload st2) (cookies st2) with
  | Raise e =>
      r = Raise e ∧ CACHE_home st' = CACHE_home st2 ∧
      CACHE_last_update st' = CACHE_last_update st2
  | Ok jar1 =>
      match on_get (portal env) URLS_home jar1 with
      | Raise e =>
          r = Raise e ∧ CACHE_home st' = CACHE_home st2 ∧
          CACHE_last_update st' = CACHE_last_update st2
      | Ok (page, jar2) =>
          CACHE_home st' = Page page ∧
          CACHE_last_update st' = now_timestamp env ∧
          sent st' = sent st2 ++ [POST URLS_login; GET URLS_home] ∧
          cookies st' = jar2 ∧
          ∃ v, r = Ok v
      end
  end.
Proof.
  intros Hphase Hrun. rewrite fetch_direct_run in Hphase. cbv zeta in Hphase.
  destruct (on_post _ _ _ _) as [jar1|e].
  2: { rewrite (get_packages_raise _ _ _ _ _ Hphase) in Hrun.
       injection Hrun as <- <-. cbn.
       repeat split; try done; eexists; by rewrite <- ?app_assoc. }
  destruct (on_get _ _ _) as [[page jar2]|e].
  2: { rewrite (get_packages_raise _ _ _ _ _ Hphase) in Hrun.
       injection Hrun as <- <-. cbn.
       repeat split; try done; eexists; by rewrite <- ?app_assoc. }
  rewrite (get_packages_run _ _ _ _ _ Hphase) in Hrun.
  match type of Hrun with respond _ _ ?s = _ => set (stf := s) in * end.
  pose proof (respond_frame (Page page) stf) as Hfr.
  rewrite Hrun in Hfr. cbn in Hfr.
  destruct Hfr as (Hh & Hl & Hc & _ & Hm & Hs & out & Ho).
  repeat split; try done.
  - rewrite Hs. cbn. eexists. by rewrite <- app_assoc.
  - rewrite Ho. cbn. eexists. by rewrite <- app_assoc.
  - rewrite Hs. cbn. by rewrite <- app_assoc.
  - destruct (cookies stf !! "WebSite_autologin") as [c|] eqn:Hin.
    + destruct (respond_logged_in (Page page) stf (text page)) as (? & Hr & _);
        [by rewrite Hin|done|].
      rewrite Hr in Hrun. injection Hrun as _ <-. eauto.
    + rewrite respond_logged_out in Hrun by done.
      injection Hrun as _ <-. eauto.
Qed.

(** C5. A [GET /] call made after the window has elapsed drops the cached
    page, logs in and fetches again, and stamps [CACHE['last_update']] with the
    current time; when the portal cannot be reached the exception leaves with
    the page already dropped and the timestamp already updated. *)
Theorem expired_cache_refetches (env : Env) (st st0 st' : State)
    (server_cache : float) (r : result (gmap string value)) :
  server_cache_of pf env st = (st0, Ok server_cache) →
  expired (CACHE_last_update st) (now_timestamp env) server_cache = true →
  packages pf sel env st = (st', r) →
  CACHE_last_update st' = now_timestamp env ∧
  (∃ rest, sent st' = sent st ++ POST URLS_login :: rest) ∧
  (∃ out, stdout st' = stdout st ++ LogLine "CACHE: DIRECT" :: out) ∧
  match on_post (portal env) URLS_login (payload st) (cookies st) with
  | Raise e => r = Raise e ∧ CACHE_home st' = EmptyStr
  | Ok jar1 =>
      match on_get (portal env) URLS_home jar1 with
      | Raise e => r = Raise e ∧ CACHE_home st' = EmptyStr
      | Ok (page, jar2) =>
          CACHE_home st' = Page page ∧
          sent st' = sent st ++ [POST URLS_login; GET URLS_home] ∧
          cookies st' = jar2 ∧
          ∃ v, r = Ok v
      end
  end.
Proof.
  intros Hsc Hexp Hrun. unfold packages in Hrun.
  destruct (server_cache_of_frame _ _ _ _ Hsc) as (Hh & Hl & Hc & Hp & Hs & Ho).
  pose proof (cache_phase_run true env st st0 server_cache Hsc) as Hphase.
  cbv zeta in Hphase. rewrite Hl, Hexp in Hphase. cbn in Hphase.
  destruct (get_packages_after_fetch _ _ _ _ _ _ Hphase Hrun)
    as (Hsent & Hout & _ & Hnet).
  cbn in Hsent, Hout, Hnet. rewrite Hs in Hsent. rewrite Ho in Hout.
  rewrite Hp, Hc, ?Hs in Hnet.
  split; [|split; [done|split; [done|]]].
  - destruct (on_post _ _ _ _) as [jar1|e]; [|by destruct Hnet as (_ & _ & ->)].
    destruct (on_get _ _ _) as [[page jar2]|e]; [|by destruct Hnet as (_ & _ & ->)].
    by destruct Hnet as (_ & -> & _).
  - destruct (on_post _ _ _ _) as [jar1|e]; [|by destruct Hnet as (-> & -> & _)].
    destruct (on_get _ _ _) as [[page jar2]|e]; [|by destruct Hnet as (-> & -> & _)].
    destruct Hnet as (? & _ & ? & ? & ?). done.
Qed.

(** C7. A [GET /now] call takes the fetch branch whatever the cache holds:
    it logs in, fetches, and overwrites both [CACHE['home']] and
    [CACHE['last_update']]. *)
Theorem now_always_fetches (env : Env) (st st0 st' : State)
    (server_cache : float) (r : result (gmap string value)) :
  server_cache_of pf env st = (st0, Ok server_cache) →
  now pf sel env st = (st', r) →
  (∃ rest, sent st' = sent st ++ POST URLS_login :: rest) ∧
  (∃ out, stdout st' = stdout st ++ LogLine "CACHE: DIRECT" :: out) ∧
  match on_post (portal env) URLS_login (payload st) (cookies st) with
  | Raise e => r = Raise e
  | Ok jar1 =>
      match on_get (portal env) URLS_home jar1 with
      | Raise e => r = Raise e
      | Ok (page, jar2) =>
          CACHE_home st' = Page page ∧
          CACHE_last_update st' = now_timestamp env ∧
          sent st' = sent st ++ [POST URLS_login; GET URLS_home] ∧
          ∃ v, r = Ok v
      end
  end.
Proof.
  intros Hsc Hrun. unfold now in Hrun.
  destruct (server_cache_of_frame _ _ _ _ Hsc) as (Hh & Hl & Hc & Hp & Hs & Ho).
  pose proof (cache_phase_run false env st st0 server_cache Hsc) as Hphase.
  cbv zeta in Hphase. rewrite !andb_false_r in Hphase.
  destruct (get_packages_after_fetch _ _ _ _ _ _ Hphase Hrun)
    as (Hsent & Hout & _ & Hnet).
  assert (Hfr : ∀ b : bool,
    let s := if b then set_last_update (now_timestamp env) st0 else st0 in
    sent s = sent st ∧ stdout s = stdout st ∧ payload s = payload st ∧
    cookies s = cookies st).
  { by intros []. }
  destruct (Hfr (expired (CACHE_last_update st0) (now_timestamp env) server_cache))
    as (Es & Eo & Ep & Ec).
  rewrite Es in Hsent. rewrite Eo in Hout. rewrite Ep, Ec, ?Es in Hnet.
  split; [done|split; [done|]].
  destruct (on_post _ _ _ _) as [jar1|e]; [|by destruct Hnet as (-> & _)].
  destruct (on_get _ _ _) as [[page jar2]|e]; [|by destruct Hnet as (-> & _)].
  destruct Hnet as (? & ? & ? & _ & ?). done.
Qed.

(** The cache duration is looked up the same way whatever the cache holds. *)
Lemma server_cache_of_ignores_cache env st h t :
  server_cache_of pf env (set_last_update t (set_home h st)) =
    (set_last_update t (set_home h (fst (server_cache_of pf env st))),
     snd (server_cache_of pf env st)).
Proof.
  unfold server_cache_of, get_config, lift, mbind, M_bind.
  change (lru (set_last_update t (set_home h st))) with (lru st).
  destruct (lru st !! _) as [x|]; [reflexivity|].
  destruct (get_config_body _ _ _) as [x|e]; reflexivity.
Qed.

(** C10. What [GET /now] returns, value or exception, is the same from two
    states that differ only in [CACHE['home']] and [CACHE['last_update']]. *)
Theorem now_ignores_cache (env : Env) (st : State) (h : home_val) (t : float) :
  snd (now pf sel env (set_last_update t (set_home h st))) =
  snd (now pf sel env st).
Proof.
  unfold now.
  pose proof (server_cache_of_ignores_cache env st h t) as Hsc'.
  destruct (server_cache_of pf env st) as [st0 [sc|e]] eqn:Hsc; cbn in Hsc'.
  2: { rewrite (get_packages_raise _ _ _ _ _ (cache_phase_raise _ _ _ _ _ Hsc)).
       by rewrite (get_packages_raise _ _ _ _ _ (cache_phase_raise _ _ _ _ _ Hsc')). }
  pose proof (cache_phase_run false env _ _ _ Hsc) as H1.
  pose proof (cache_phase_run false env _ _ _ Hsc') as H2.
  cbv zeta in H1, H2. rewrite !andb_false_r in H1, H2.
  rewrite fetch_direct_run in H1, H2. cbv zeta in H1, H2.
  assert (E : ∀ (b b' : bool),
    let s := if b then set_last_update (now_timestamp env) st0 else st0 in
    let s' := if b' then set_last_update (now_timestamp env)
                           (set_last_update t (set_home h st0))
              else set_last_update t (set_home h st0) in
    payload s' = payload s ∧ cookies s' = cookies s).
  { by intros [] []. }
  destruct (E (expired (CACHE_last_update st0) (now_timestamp env) sc)
              (expired (CACHE_last_update (set_last_update t (set_home h st0)))
                 (now_timestamp env) sc)) as (Ep & Ec).
  rewrite Ep, Ec in H2. clear E Ep Ec.
  destruct (on_post _ _ _ _) as [jar1|e].
  2: { rewrite (get_packages_raise _ _ _ _ _ H1).
       by rewrite (get_packages_raise _ _ _ _ _ H2). }
  destruct (on_get _ _ _) as [[page jar2]|e].
  2: { rewrite (get_packages_raise _ _ _ _ _ H1).
       by rewrite (get_packages_raise _ _ _ _ _ H2). }
  rewrite (get_packages_run _ _ _ _ _ H1), (get_packages_run _ _ _ _ _ H2).
  by apply respond_result.
Qed.

(** C4, amended. After a [GET /] call that fetched a page with a non-error
    status, a second [GET /] call within the window returns without sending
    anything: it takes the cache branch and leaves the cached page and its
    timestamp as they are, so the two calls send one login and one fetch. *)
Theorem second_call_within_window_hits_cache (env1 env2 : Env)
    (st st1 : State) (r1 : gmap string value) (page : Response) :
  packages pf sel env1 st = (st1, Ok r1) →
  sent st1 = sent st ++ [POST URLS_login; GET URLS_home] →
  CACHE_home st1 = Page page →
  Response_ok page = true →
  within_window pf env2 st1 →
  ∃ st2 r2,
    packages pf sel env2 st1 = (st2, Ok r2) ∧
    sent st2 = sent st ++ [POST URLS_login; GET URLS_home] ∧
    (∃ out, stdout st2 = stdout st1 ++ LogLine "CACHE: CACHE" :: out) ∧
    CACHE_home st2 = Page page ∧
    CACHE_last_update st2 = CACHE_last_update st1.
Proof.
  intros _ Hsent Hhome Hok (st0 & sc & Hsc & Hwin).
  destruct (server_cache_of_frame _ _ _ _ Hsc) as (Hh & Hl & Hc & Hp & Hs & Ho).
  pose proof (cache_phase_run true env2 st1 st0 sc Hsc) as Hphase.
  cbv zeta in Hphase. rewrite Hl, Hwin in Hphase. cbn in Hphase.
  rewrite Hh, Hhome in Hphase. cbn in Hphase. rewrite Hok in Hphase.
  cbn in Hphase.
  unfold packages. rewrite (get_packages_run _ _ _ _ _ Hphase).
  set (stc := print (LogLine "CACHE: CACHE") st0) in *.
  pose proof (respond_frame (Page page) stc) as Hfr.
  destruct (respond sel (Page page) stc) as [st2 r2] eqn:Hr. cbn in Hfr.
  destruct Hfr as (Fh & Fl & Fc & _ & _ & Fs & out & Fo).
  assert (∃ v, r2 = Ok v) as [v ->].
  { destruct (cookies stc !! "WebSite_autologin") as [c|] eqn:Hin.
    - destruct (respond_logged_in (Page page) stc (text page)) as (? & Hr' & _);
        [by rewrite Hin|done|].
      rewrite Hr' in Hr. injection Hr as _ <-. eauto.
    - rewrite respond_logged_out in Hr by done. injection Hr as _ <-. eauto. }
  exists st2, v. split; [done|].
  repeat split.
  - by rewrite Fs, <- Hsent, <- Hs.
  - exists out. rewrite Fo. cbn. by rewrite Ho, <- app_assoc.
  - by rewrite Fh, <- Hhome, <- Hh.
  - by rewrite Fl, <- Hl.
Qed.

End GetPackagesFacts.

(** ** The statements at the sample data *)

Lemma transform_package_never_raises_witness :
  transform_package row_no_weight st_warm =
    (print (Traceback AttributeError) st_warm, Ok ∅) ∧
  try_block row_two_tokens = Raise ValueError ∧
  ∃ st2 items,
    get_packages float_of_digits sample_select true
      (env_at 1700000060 (portal_serving page_200)) st_warm =
      (st2, Ok (<["items" := VList items]> (<["logged_in" := VBool true]> ∅))) ∧
    length items = 3 ∧
    items !! 1 = Some ∅.
Proof.
  destruct (transform_package_never_raises float_of_digits sample_select
              row_no_weight st_warm) as (_ & Hexc & Hcell & _ & Hkeep).
  destruct (transform_package_never_raises float_of_digits sample_select
              row_two_tokens st_warm) as (_ & _ & _ & Hgroups & _).
  split; [|split].
  - apply Hexc. vm_compute. reflexivity.
  - apply (Hgroups "all status5"); [reflexivity|]. vm_compute. discriminate.
  - destruct (Hkeep true (env_at 1700000060 (portal_serving page_200)) st_warm
                (fst (cache_phase float_of_digits true
                        (env_at 1700000060 (portal_serving page_200)) st_warm))
                (Page page_200) "dashboard" 1)
      as (st2 & items & Hrun & Hlen & _ & Hempty).
    + vm_compute. reflexivity.
    + vm_compute. eexists. reflexivity.
    + reflexivity.
    + reflexivity.
    + exists st2, items. split; [exact Hrun|]. split; [exact Hlen|].
      apply Hempty. apply (Hcell "packageweight").
      * unfold required_classes. do 4 apply list_elem_of_further. apply list_elem_of_here.
      * vm_compute. reflexivity.
Defined.

Lemma get_packages_logged_out_witness :
  ∃ st1,
    get_packages float_of_digits sample_select false
      (env_at 1700000000 portal_rejecting) st_boot = (st1, Ok INITIAL_STATE) ∧
    CACHE_home st1 = Page page_200.
Proof.
  exists (fst (cache_phase float_of_digits false
                 (env_at 1700000000 portal_rejecting) st_boot)).
  split.
  - apply (proj1 (get_packages_logged_out float_of_digits sample_select false
                    (env_at 1700000000 portal_rejecting) st_boot _ (Page page_200)
                    ltac:(vm_compute; reflexivity) ltac:(vm_compute; reflexivity))).
  - vm_compute. reflexivity.
Defined.

Lemma logged_in_key_is_true_witness :
  ∃ st',
    get_packages float_of_digits sample_select true
      (env_at 1700000000 (portal_serving page_200)) st_boot =
      (st', Ok (<["items" := VList (package_of <$> sample_select "dashboard")]> (
                <["logged_in" := VBool true]> ∅))) ∧
    VBool true = VBool true.
Proof.
  exists (fst (get_packages float_of_digits sample_select true
                 (env_at 1700000000 (portal_serving page_200)) st_boot)).
  assert (Hrun : get_packages float_of_digits sample_select true
                   (env_at 1700000000 (portal_serving page_200)) st_boot =
                 (fst (get_packages float_of_digits sample_select true
                         (env_at 1700000000 (portal_serving page_200)) st_boot),
                  Ok (<["items" := VList (package_of <$> sample_select "dashboard")]> (
                      <["logged_in" := VBool true]> ∅)))).
  { vm_compute. reflexivity. }
  split; [exact Hrun|].
  apply (logged_in_key_is_true float_of_digits sample_select true
           (env_at 1700000000 (portal_serving page_200)) st_boot _ _ _ Hrun).
  vm_compute. reflexivity.
Defined.

Lemma expired_cache_refetches_witness :
  ∃ st',
    fst (packages float_of_digits sample_select
           (env_at 1700003600 (portal_serving page_200)) st_warm) = st' ∧
    CACHE_last_update st' = 1700003600%float ∧
    CACHE_home st' = Page page_200 ∧
    sent st' = sent st_warm ++ [POST URLS_login; GET URLS_home].
Proof.
  eexists. split; [reflexivity|].
  destruct (expired_cache_refetches float_of_digits sample_select
              (env_at 1700003600 (portal_serving page_200)) st_warm
              (fst (server_cache_of float_of_digits
                      (env_at 1700003600 (portal_serving page_200)) st_warm))
              (fst (packages float_of_digits sample_select
                      (env_at 1700003600 (portal_serving page_200)) st_warm))
              30%float
              (snd (packages float_of_digits sample_select
                      (env_at 1700003600 (portal_serving page_200)) st_warm)))
    as (Hl & _ & _ & Hh & Hs & _).
  - vm_compute. reflexivity.
  - vm_compute. reflexivity.
  - apply surjective_pairing.
  - split; [exact Hl|]. split; [exact Hh|exact Hs].
Defined.

Lemma now_always_fetches_witness :
  ∃ st',
    fst (now float_of_digits sample_select
           (env_at 1700000060 (portal_serving page_200)) st_warm) = st' ∧
    CACHE_home st' = Page page_200 ∧
    CACHE_last_update st' = 1700000060%float ∧
    sent st' = sent st_warm ++ [POST URLS_login; GET URLS_home].
Proof.
  eexists. split; [reflexivity|].
  destruct (now_always_fetches float_of_digits sample_select
              (env_at 1700000060 (portal_serving page_200)) st_warm
              (fst (server_cache_of float_of_digits
                      (env_at 1700000060 (portal_serving page_200)) st_warm))
              (fst (now float_of_digits sample_select
                      (env_at 1700000060 (portal_serving page_200)) st_warm))
              30%float
              (snd (now float_of_digits sample_select
                      (env_at 1700000060 (portal_serving page_200)) st_warm)))
    as (_ & _ & Hh & Hl & Hs & _).
  - vm_compute. reflexivity.
  - apply surjective_pairing.
  - split; [exact Hh|]. split; [exact Hl|exact Hs].
Defined.

Lemma second_call_within_window_hits_cache_witness :
  ∃ st1 st2 r2,
    packages float_of_digits sample_select
      (env_at 1700000000 (portal_serving page_200)) st_boot =
      (st1, Ok (<["items" := VList (package_of <$> sample_select "dashboard")]> (
                <["logged_in" := VBool true]> ∅))) ∧
    packages float_of_digits sample_select
      (env_at 1700000060 (portal_serving page_200)) st1 = (st2, Ok r2) ∧
    sent st2 = [POST URLS_login; GET URLS_home].
Proof.
  set (st1 := fst (packages float_of_digits sample_select
                     (env_at 1700000000 (portal_serving page_200)) st_boot)).
  assert (Hfirst : packages float_of_digits sample_select
                     (env_at 1700000000 (portal_serving page_200)) st_boot =
                   (st1, Ok (<["items" := VList (package_of <$> sample_select "dashboard")]> (
                             <["logged_in" := VBool true]> ∅)))).
  { vm_compute. reflexivity. }
  destruct (second_call_within_window_hits_cache float_of_digits sample_select
              (env_at 1700000000 (portal_serving page_200))
              (env_at 1700000060 (portal_serving page_200))
              st_boot st1 _ page_200 Hfirst)
    as (st2 & r2 & Hrun & Hsent & _).
  - vm_compute. reflexivity.
  - vm_compute. reflexivity.
  - reflexivity.
  - exists (fst (server_cache_of float_of_digits
                   (env_at 1700000060 (portal_serving page_200)) st1)), 30%float.
    split; vm_compute; reflexivity.
  - exists st1, st2, r2. split; [exact Hfirst|]. split; [exact Hrun|exact Hsent].
Defined.

(** C4, as stated, fails: a page fetched with status 503 is stored in
    [CACHE['home']] but counts as false in [if CACHE['home'] and use_cache],
    so the second call, one minute later, logs in and fetches again. *)
Lemma one_fetch_for_two_calls_fails_on_error_page :
  ¬ one_fetch_for_two_calls float_of_digits sample_select
      (env_at 1700000000 (portal_serving page_503))
      (env_at 1700000060 (portal_serving page_503)) st_boot.
Proof.
  intros H.
  set (st1 := fst (packages float_of_digits sample_select
                     (env_at 1700000000 (portal_serving page_503)) st_boot)).
  destruct (H st1 (<["items" := VList (package_of <$> sample_select "unavailable")]> (
                   <["logged_in" := VBool true]> ∅)))
    as (st2 & r2 & Hrun & Hsent).
  - vm_compute. reflexivity.
  - vm_compute. reflexivity.
  - exists (fst (server_cache_of float_of_digits
                   (env_at 1700000060 (portal_serving page_503)) st1)), 30%float.
    split; vm_compute; reflexivity.
  - apply (f_equal (fun x => sent (fst x))) in Hrun. cbn [fst] in Hrun.
    rewrite Hsent in Hrun. vm_compute in Hrun. discriminate.
Qed.

(** * Further properties *)

(** ** [get_config]: memo table, credentials, malformed keys *)
















(** ** [transform_package]: which rows survive, and the empty-cell default *)

Ltac in_required :=
  unfold required_classes;
  repeat first [apply list_elem_of_here | apply list_elem_of_further].

Lemma first_of_class_ok_iff soup c :
  (∃ v, first_of_class soup c = Ok v) ↔ ∃ kids, has_cell_with soup c kids.
Proof.
  unfold first_of_class, has_cell_with. split.
  - intros [v Hv]. destruct (Tag_find soup c) as [[[s|n a k]|]|e]; try done.
    eauto.
  - intros (kids & n & a & ->). eauto.
Qed.

Lemma first_of_class_with soup c kids :
  has_cell_with soup c kids → first_of_class soup c = Ok (get_first kids).
Proof. intros (n & a & H). unfold first_of_class. by rewrite H. Qed.

(** X7. A row keeps its record exactly when [data-groups] is present and
    splits into three tokens and each of the five classes is found below the
    row; in every other case [transform_package] returns [{}]. *)
Theorem row_kept_iff (soup : node) :
  (∀ st, ∃ st', transform_package soup st = (st', Ok (package_of soup))) ∧
  (package_of soup ≠ ∅ ↔
     (∃ groups prefix status status_label,
        Tag_getitem soup "data-groups" = Ok groups ∧
        py_split groups = [prefix; status; status_label]) ∧
     (∀ c, c ∈ required_classes → ∃ kids, has_cell_with soup c kids)).
Proof.
  split.
  { intros st. destruct (transform_package_run soup st) as (st' & H & _). eauto. }
  assert (Hne : ∀ l, item_of l ≠ ∅).
  { intros l H. apply (f_equal (fun d => d !! "condition")) in H.
    unfold item_of in H. by rewrite lookup_insert_eq, lookup_empty in H. }
  unfold package_of. split.
  - intros Hkept. destruct (try_block soup) as [l|e] eqn:Hb; [|done].
    unfold try_block in Hb.
    destruct (Tag_getitem soup "data-groups") as [groups|?]; [|done].
    rewrite result_bind_ok in Hb.
    destruct (py_split groups) as [|p [|s [|lab [|? ?]]]] eqn:Hs; try done.
    rewrite result_bind_ok in Hb.
    destruct (first_of_class soup "packagecondition") as [v1|?] eqn:H1; [|done].
    rewrite result_bind_ok in Hb.
    destruct (first_of_class soup "trackingnumber") as [v2|?] eqn:H2; [|done].
    rewrite result_bind_ok in Hb.
    destruct (first_of_class soup "packagecontent") as [v3|?] eqn:H3; [|done].
    rewrite result_bind_ok in Hb.
    destruct (first_of_class soup "packagesender") as [v4|?] eqn:H4; [|done].
    rewrite result_bind_ok in Hb.
    destruct (first_of_class soup "packageweight") as [v5|?] eqn:H5; [|done].
    split; [by eauto 10|].
    intros c Hc. apply first_of_class_ok_iff. unfold required_classes in Hc.
    repeat (apply elem_of_cons in Hc as [->|Hc]); eauto.
    by apply elem_of_nil in Hc.
  - intros [(groups & p & s & lab & Hg & Hs) Hcells].
    assert (Hc : ∀ c, c ∈ required_classes → ∃ v, first_of_class soup c = Ok v).
    { intros c Hc. apply first_of_class_ok_iff. by apply Hcells. }
    unfold try_block. rewrite Hg, result_bind_ok, Hs, result_bind_ok.
    destruct (Hc "packagecondition") as [v1 ->]; [in_required|].
    destruct (Hc "trackingnumber") as [v2 ->]; [in_required|].
    destruct (Hc "packagecontent") as [v3 ->]; [in_required|].
    destruct (Hc "packagesender") as [v4 ->]; [in_required|].
    destruct (Hc "packageweight") as [v5 ->]; [in_required|].
    rewrite !result_bind_ok. apply Hne.
Qed.

Lemma row_kept_iff_witness :
  package_of row_empty_weight ≠ ∅ ∧ ¬ package_of row_no_weight ≠ ∅.
Proof.
  split.
  - apply (proj2 (proj2 (row_kept_iff row_empty_weight))). split.
    + exists "all status2 Transito", "all", "status2", "Transito". by split.
    + intros c Hc. unfold required_classes in Hc.
      repeat (apply elem_of_cons in Hc as [->|Hc]);
        try (by apply elem_of_nil in Hc);
        eexists; eexists _, _; vm_compute; reflexivity.
  - intros H. apply (proj1 (proj2 (row_kept_iff row_no_weight))) in H.
    destruct H as [_ H].
    destruct (H "packageweight") as (kids & n & a & Hf).
    + in_required.
    + vm_compute in Hf. discriminate.
Defined.

(** X8. Each of the five fields is the first child of its cell, and [''] for
    a cell that has no children; the row is not dropped for an empty cell. *)
Theorem transform_package_cells (soup : node) (st : State)
    (groups prefix status status_label : string)
    (condition tracking_number content sender weight : list node) :
  Tag_getitem soup "data-groups" = Ok groups →
  py_split groups = [prefix; status; status_label] →
  has_cell_with soup "packagecondition" condition →
  has_cell_with soup "trackingnumber" tracking_number →
  has_cell_with soup "packagecontent" content →
  has_cell_with soup "packagesender" sender →
  has_cell_with soup "packageweight" weight →
  ∃ item : gmap string item_val,
    transform_package soup st = (st, Ok item) ∧
    item !! "condition" = Some (get_first condition) ∧
    item !! "trackingNumber" = Some (get_first tracking_number) ∧
    item !! "content" = Some (get_first content) ∧
    item !! "sender" = Some (get_first sender) ∧
    item !! "weight" = Some (get_first weight) ∧
    get_first [] = IStr "".
Proof.
  intros Hg Hs H1 H2 H3 H4 H5. eexists. split.
  - unfold transform_package, try_block.
    rewrite Hg, result_bind_ok, Hs, result_bind_ok.
    rewrite (first_of_class_with _ _ _ H1), result_bind_ok.
    rewrite (first_of_class_with _ _ _ H2), result_bind_ok.
    rewrite (first_of_class_with _ _ _ H3), result_bind_ok.
    rewrite (first_of_class_with _ _ _ H4), result_bind_ok.
    rewrite (first_of_class_with _ _ _ H5), result_bind_ok.
    reflexivity.
  - unfold item_of. cbn [l_status l_status_label l_condition l_tracking_number
      l_content l_sender l_weight].
    repeat split; by simplify_map_eq.
Qed.

Lemma transform_package_cells_witness :
  ∃ item : gmap string item_val,
    transform_package row_empty_weight st_boot = (st_boot, Ok item) ∧
    item !! "weight" = Some (IStr "").
Proof.
  destruct (transform_package_cells row_empty_weight st_boot
              "all status2 Transito" "all" "status2" "Transito"
              [NavigableString "OK"] [NavigableString "EPS127"]
              [NavigableString "Toys"] [NavigableString "ACME"] [])
    as (item & Hrun & _ & _ & _ & _ & Hw & _).
  - reflexivity.
  - reflexivity.
  - eexists _, _. vm_compute. reflexivity.
  - eexists _, _. vm_compute. reflexivity.
  - eexists _, _. vm_compute. reflexivity.
  - eexists _, _. vm_compute. reflexivity.
  - eexists _, _. vm_compute. reflexivity.
  - exists item. split; [exact Hrun|exact Hw].
Defined.

(** X9. [statusFormatted] is ['na'] exactly for a status outside the seven
    known codes: no known code is labelled ['na']. *)
Theorem status_formatted_na_iff_unknown (l : locals) :
  item_of l !! "statusFormatted" = Some (IStr "na") ↔
  l_status l ∉ known_statuses.
Proof.
  assert (Hlab : ∀ s v, status_mapper !! s = Some v → v ≠ "na").
  { intros s v H. apply elem_of_list_to_map_2 in H.
    repeat (apply elem_of_cons in H as [[= -> ->]|H]; [done|]).
    by apply elem_of_nil in H. }
  assert (Hdom : ∀ s, is_Some (status_mapper !! s) ↔ s ∈ known_statuses).
  { intros s. rewrite <- elem_of_dom. unfold status_mapper.
    rewrite dom_list_to_map_L, elem_of_list_to_set. reflexivity. }
  unfold item_of. rewrite !lookup_insert_ne by done. rewrite lookup_insert_eq.
  rewrite <- Hdom.
  destruct (status_mapper !! l_status l) as [v|] eqn:Hv; cbn.
  - split.
    + intros [= ->]. by apply Hlab in Hv.
    + intros H. destruct H. eauto.
  - split; [|done]. intros _ [? ?]. done.
Qed.

Lemma status_formatted_na_iff_unknown_witness :
  package_of row_unknown_status !! "statusFormatted" = Some (IStr "na").
Proof.
  change (package_of row_unknown_status) with
    (item_of {| l_status := "status9"; l_status_label := "Perdido";
                l_condition := INode (NavigableString "OK");
                l_tracking_number := INode (NavigableString "EPS126");
                l_content := INode (NavigableString "Lamp");
                l_sender := INode (NavigableString "ACME");
                l_weight := INode (NavigableString "1.0") |}).
  apply (proj2 (status_formatted_na_iff_unknown _)).
  cbn [l_status]. unfold known_statuses. intros H.
  repeat (apply elem_of_cons in H as [H|H]; [discriminate|]).
  by apply elem_of_nil in H.
Defined.

Lemma has_space_app a b : has_space (a +:+ b) = has_space a || has_space b.
Proof.
  induction a as [|c a IH]; [done|].
  change (String c a +:+ b) with (String c (a +:+ b)).
  cbn [has_space]. by rewrite IH, orb_assoc.
Qed.

Lemma split_ws_from_tokens s :
  ∀ w, (∀ x, w = Some x → x ≠ "" ∧ has_space x = false) →
       Forall (fun t => t ≠ "" ∧ has_space t = false) (split_ws_from w s).
Proof.
  induction s as [|c s IH]; intros w Hw; cbn.
  - destruct w as [x|]; [|constructor]. constructor; [by apply Hw|constructor].
  - destruct (py_isspace c) eqn:Hc.
    + destruct w as [x|].
      * constructor; [by apply Hw|]. by apply IH.
      * by apply IH.
    + apply IH. intros x [= <-]. split.
      * by destruct w as [[|? ?]|].
      * rewrite has_space_app. cbn. rewrite Hc. cbn.
        destruct w as [x|]; cbn; [|done].
        rewrite orb_false_r. by apply Hw.
Qed.

(** X16. In a record that is kept, [status] and [statusLabel] are non-empty
    and free of whitespace: they are tokens of [data-groups.split()]. *)
Theorem try_block_status_tokens (soup : node) (l : locals) :
  try_block soup = Ok l →
  l_status l ≠ "" ∧ has_space (l_status l) = false ∧
  l_status_label l ≠ "" ∧ has_space (l_status_label l) = false.
Proof.
  intros Hb. unfold try_block in Hb.
  destruct (Tag_getitem soup "data-groups") as [groups|?]; [|done].
  rewrite result_bind_ok in Hb.
  pose proof (split_ws_from_tokens groups None) as Htok.
  unfold py_split in Hb.
  destruct (split_ws_from None groups) as [|p [|s [|lab [|? ?]]]]; try done.
  rewrite result_bind_ok in Hb.
  destruct (first_of_class soup "packagecondition") as [v1|?]; [|done].
  rewrite result_bind_ok in Hb.
  destruct (first_of_class soup "trackingnumber") as [v2|?]; [|done].
  rewrite result_bind_ok in Hb.
  destruct (first_of_class soup "packagecontent") as [v3|?]; [|done].
  rewrite result_bind_ok in Hb.
  destruct (first_of_class soup "packagesender") as [v4|?]; [|done].
  rewrite result_bind_ok in Hb.
  destruct (first_of_class soup "packageweight") as [v5|?]; [|done].
  rewrite result_bind_ok in Hb. injection Hb as <-. cbn.
  assert (Hf : Forall (fun t => t ≠ "" ∧ has_space t = false) [p; s; lab])
    by (by apply Htok).
  apply Forall_cons in Hf as [_ Hf].
  apply Forall_cons in Hf as [[? ?] Hf].
  apply Forall_cons in Hf as [[? ?] _]. done.
Qed.

Lemma package_of_shape soup : package_of soup = ∅ ∨ dom (package_of soup) = item_keys.
Proof.
  unfold package_of. destruct (try_block soup) as [l|e]; [right|by left].
  unfold item_of, item_keys. rewrite !dom_insert_L, dom_empty_L. set_solver.
Qed.


(** ** [get_packages]: footprint, memoized duration, cache hits *)

Section GetPackagesMore.

Variable pf : string → option float.
Variable sel : string → list node.

(** Once read, the cache duration is answered from the memo table. *)
Lemma server_cache_of_memo env st st0 sc :
  server_cache_of pf env st = (st0, Ok sc) →
  ∀ env' st', lru st' = lru st0 → server_cache_of pf env' st' = (st', Ok sc).
Proof.
  unfold server_cache_of, get_config, lift, mbind, M_bind.
  destruct (lru st !! ("server.cache", PInt 30)) as [x|] eqn:Hm.
  - intros [= <- Hx] env' st' Hl. by rewrite Hl, Hm, Hx.
  - destruct (get_config_body _ _ _) as [x|e]; [|done].
    intros [= <- Hx] env' st' Hl. rewrite Hl. cbn [lru set_lru].
    by rewrite lookup_insert_eq, Hx.
Qed.

Lemma server_cache_of_lru env st st0 sc :
  server_cache_of pf env st = (st0, Ok sc) →
  server_cache_of pf env st0 = (st0, Ok sc).
Proof. intros H. by apply (server_cache_of_memo _ _ _ _ H). Qed.

(** How the fetch branch ends. *)
Lemma fetch_direct_outcome env st2 st1 r :
  fetch_direct env st2 = (st1, r) →
  lru st1 = lru st2 ∧ payload st1 = payload st2 ∧
  ((sent st1 = sent st2 ++ [POST URLS_login] ∧
    (∃ e, on_post (portal env) URLS_login (payload st2) (cookies st2) = Raise e ∧
          r = Raise e) ∧
    CACHE_home st1 = CACHE_home st2 ∧
    CACHE_last_update st1 = CACHE_last_update st2 ∧ cookies st1 = cookies st2) ∨
   (sent st1 = sent st2 ++ [POST URLS_login; GET URLS_home] ∧ (∃ e, r = Raise e) ∧
    CACHE_home st1 = CACHE_home st2 ∧
    CACHE_last_update st1 = CACHE_last_update st2) ∨
   (sent st1 = sent st2 ++ [POST URLS_login; GET URLS_home] ∧
    CACHE_last_update st1 = now_timestamp env ∧
    ∃ page, r = Ok (Page page) ∧ CACHE_home st1 = Page page)).
Proof.
  rewrite fetch_direct_run. cbv zeta.
  destruct (on_post _ _ _ _) as [jar1|e].
  2: { intros [= <- <-]. cbn. repeat split. left. repeat split; eauto. }
  destruct (on_get _ _ _) as [[page jar2]|e].
  2: { intros [= <- <-]. cbn. repeat split. right. left.
       rewrite <- app_assoc. repeat split; eauto. }
  intros [= <- <-]. cbn. repeat split. right. right.
  rewrite <- app_assoc. repeat split; eauto.
Qed.

(** How the first half of [get_packages] ends. *)
Lemma cache_phase_outcome use_cache env st st1 r :
  cache_phase pf use_cache env st = (st1, r) →
  (∃ e, server_cache_of pf env st = (st1, Raise e) ∧ r = Raise e) ∨
  (∃ st0 sc,
     server_cache_of pf env st = (st0, Ok sc) ∧
     ((use_cache = true ∧
       expired (CACHE_last_update st) (now_timestamp env) sc = false ∧
       truthy (CACHE_home st) = true ∧
       st1 = print (LogLine "CACHE: CACHE") st0 ∧ r = Ok (CACHE_home st)) ∨
      (∃ st2,
         fetch_direct env st2 = (st1, r) ∧
         sent st2 = sent st ∧ cookies st2 = cookies st ∧
         payload st2 = payload st ∧ lru st2 = lru st0 ∧
         (CACHE_last_update st2 = CACHE_last_update st ∨
          CACHE_last_update st2 = now_timestamp env) ∧
         (expired (CACHE_last_update st) (now_timestamp env) sc = true →
          CACHE_last_update st2 = now_timestamp env) ∧
         (CACHE_home st2 = CACHE_home st ∨ CACHE_home st2 = EmptyStr) ∧
         (use_cache = false → CACHE_home st2 = CACHE_home st)))).
Proof.
  intros Hrun.
  destruct (server_cache_of pf env st) as [st0 [sc|e]] eqn:Hsc.
  2: { rewrite (cache_phase_raise _ _ _ _ _ _ Hsc) in Hrun.
       injection Hrun as <- <-. left. eauto. }
  right. exists st0, sc. split; [done|].
  destruct (server_cache_of_frame _ _ _ _ _ Hsc) as (Hh & Hl & Hc & Hp & Hs & Ho).
  rewrite (cache_phase_run _ _ _ _ _ _ Hsc) in Hrun. cbv zeta in Hrun.
  rewrite Hl in Hrun.
  destruct use_cache; rewrite ?andb_false_r, ?andb_true_r in Hrun.
  - destruct (expired (CACHE_last_update st) (now_timestamp env) sc) eqn:Hexp;
      cbn in Hrun.
    + right. eexists. split; [exact Hrun|]. cbn. repeat split; eauto; done.
    + rewrite Hh in Hrun. destruct (truthy (CACHE_home st)) eqn:Ht.
      * left. by injection Hrun as <- <-.
      * right. eexists. split; [exact Hrun|]. repeat split; eauto; done.
  - right. eexists. split; [exact Hrun|].
    destruct (expired (CACHE_last_update st) (now_timestamp env) sc) eqn:Hexp;
      cbn; repeat split; eauto; done.
Qed.

(** The page returned by the first half is the page left in the cache. *)
Lemma cache_phase_home use_cache env st st1 eps_home :
  cache_phase pf use_cache env st = (st1, Ok eps_home) →
  CACHE_home st1 = eps_home.
Proof.
  intros Hrun.
  destruct (cache_phase_outcome _ _ _ _ _ Hrun)
    as [(e & _ & ?)|(st0 & sc & Hsc & [(_ & _ & _ & Hst & Hr)|(st2 & Hf & _)])].
  - done.
  - injection Hr as Hr. subst st1 eps_home. cbn.
    by destruct (server_cache_of_frame _ _ _ _ _ Hsc) as (-> & _).
  - destruct (fetch_direct_outcome _ _ _ _ Hf)
      as (_ & _ & [(_ & (e & _ & ?) & _)|[(_ & [e ?] & _)|(_ & _ & page & Hr & Hh)]]);
      try done.
    injection Hr as ->. done.
Qed.

(** What a call leaves behind, in terms of the state after its first half. *)
Lemma get_packages_split use_cache env st st' r :
  get_packages pf sel use_cache env st = (st', r) →
  ∃ st1 r1,
    cache_phase pf use_cache env st = (st1, r1) ∧
    same_but_stdout st1 st' ∧
    match r1 with
    | Ok eps_home => respond sel eps_home st1 = (st', r)
    | Raise e => st' = st1 ∧ r = Raise e
    end.
Proof.
  intros Hrun.
  destruct (cache_phase pf use_cache env st) as [st1 [eps_home|e]] eqn:Hphase.
  - rewrite (get_packages_run _ _ _ _ _ _ _ Hphase) in Hrun.
    exists st1, (Ok eps_home). split; [done|]. split; [|done].
    pose proof (respond_frame sel eps_home st1) as Hfr. by rewrite Hrun in Hfr.
  - rewrite (get_packages_raise _ _ _ _ _ _ _ Hphase) in Hrun.
    injection Hrun as <- <-.
    exists st1, (Raise e). split; [done|]. split; [apply same_but_stdout_refl|done].
Qed.

(** X10. A call sends nothing, or the login POST alone (and then raises), or
    the login POST followed by the dashboard GET, and nothing else; it sets
    [CACHE['last_update']] to its own clock reading or leaves it, and never
    changes the login payload. *)
Theorem get_packages_footprint (use_cache : bool) (env : Env)
    (st st' : State) (r : result (gmap string value)) :
  get_packages pf sel use_cache env st = (st', r) →
  (sent st' = sent st ∨
   (sent st' = sent st ++ [POST URLS_login] ∧ ∃ e, r = Raise e) ∨
   sent st' = sent st ++ [POST URLS_login; GET URLS_home]) ∧
  (CACHE_last_update st' = CACHE_last_update st ∨
   CACHE_last_update st' = now_timestamp env) ∧
  payload st' = payload st.
Proof.
  intros Hrun.
  destruct (get_packages_split _ _ _ _ _ Hrun) as (st1 & r1 & Hphase & Hfr & Hr).
  destruct Hfr as (_ & Fl & _ & Fp & _ & Fs & _).
  rewrite Fs, Fl, Fp.
  destruct (cache_phase_outcome _ _ _ _ _ Hphase)
    as [(e & Hsc & ->)|(st0 & sc & Hsc & [(_ & _ & _ & -> & ->)|(st2 & Hf & Hrest)])].
  - destruct (server_cache_of_frame _ _ _ _ _ Hsc) as (_ & -> & _ & -> & -> & _).
    auto.
  - destruct (server_cache_of_frame _ _ _ _ _ Hsc) as (_ & Hl & _ & Hp & Hs & _).
    cbn. rewrite Hl, Hp, Hs. auto.
  - destruct Hrest as (Es & _ & Ep & _ & El & _).
    destruct (fetch_direct_outcome _ _ _ _ Hf) as (_ & Hp & Hcases).
    rewrite Hp, Ep. split; [|split; [|done]].
    + destruct Hcases as [(-> & (e & _ & ->) & _)|[(-> & _)|(-> & _)]];
        rewrite Es; [|auto..].
      destruct Hr as [_ ->]. eauto.
    + destruct Hcases as [(_ & _ & _ & -> & _)|[(_ & _ & _ & ->)|(_ & -> & _)]]; auto.
Qed.


(** X11. After a call that could read the cache duration, every later
    lookup of the duration gives the same number without reading
    [config.ini]: edits to [server.cache] are not seen until restart. *)
Theorem cache_duration_fixed (use_cache : bool) (env : Env)
    (st st0 st' : State) (server_cache : float)
    (r : result (gmap string value)) :
  server_cache_of pf env st = (st0, Ok server_cache) →
  get_packages pf sel use_cache env st = (st', r) →
  ∀ env', server_cache_of pf env' st' = (st', Ok server_cache).
Proof.
  intros Hsc Hrun env'. apply (server_cache_of_memo _ _ _ _ Hsc).
  destruct (get_packages_split _ _ _ _ _ Hrun) as (st1 & r1 & Hphase & Hfr & _).
  destruct Hfr as (_ & _ & _ & _ & -> & _).
  destruct (cache_phase_outcome _ _ _ _ _ Hphase)
    as [(e & Hsc' & _)|(st0' & sc' & Hsc' & [(_ & _ & _ & -> & _)|(st2 & Hf & Hrest)])];
    rewrite Hsc in Hsc'; [done|..]; injection Hsc' as <- <-.
  - done.
  - destruct Hrest as (_ & _ & _ & <- & _).
    by destruct (fetch_direct_outcome _ _ _ _ Hf) as (-> & _).
Qed.


(** A cached page always yields a response. *)
Lemma respond_page_ok page st :
  ∃ st' v, respond sel (Page page) st = (st', Ok v) ∧ same_but_stdout st st'.
Proof.
  destruct (cookies st !! "WebSite_autologin") as [c|] eqn:Hin.
  - destruct (respond_logged_in sel (Page page) st (text page)) as (st' & Hr & Hfr);
      [by rewrite Hin|done|]. eauto.
  - rewrite respond_logged_out by done. eexists _, _. split; [done|].
    apply same_but_stdout_refl.
Qed.

(** Within the window, a truthy cached page is used as it is. *)
Lemma cache_phase_hit env st :
  truthy (CACHE_home st) = true →
  within_window pf env st →
  ∃ st0 sc,
    server_cache_of pf env st = (st0, Ok sc) ∧
    cache_phase pf true env st =
      (print (LogLine "CACHE: CACHE") st0, Ok (CACHE_home st)).
Proof.
  intros Ht (st0 & sc & Hsc & Hwin). exists st0, sc. split; [done|].
  destruct (server_cache_of_frame _ _ _ _ _ Hsc) as (Hh & Hl & _).
  rewrite (cache_phase_run _ _ _ _ _ _ Hsc). cbv zeta.
  rewrite Hl, Hwin. cbn. by rewrite Hh, Ht.
Qed.

(** X12. The call that follows [/clear] never uses a cached page: it sends
    the login POST, whether or not the window has elapsed. *)
Theorem clear_then_packages_fetches (env : Env) (st st0 st' : State)
    (server_cache : float) (r : result (gmap string value)) :
  server_cache_of pf env (fst (clear st)) = (st0, Ok server_cache) →
  packages pf sel env (fst (clear st)) = (st', r) →
  ∃ rest, sent st' = sent st ++ POST URLS_login :: rest.
Proof.
  intros Hsc Hrun. unfold packages in Hrun.
  destruct (get_packages_split _ _ _ _ _ Hrun) as (st1 & r1 & Hphase & Hfr & _).
  destruct Hfr as (_ & _ & _ & _ & _ & -> & _).
  destruct (cache_phase_outcome _ _ _ _ _ Hphase)
    as [(e & Hsc' & _)|(st0' & sc' & _ & [(_ & _ & Ht & _)|(st2 & Hf & Es & _)])].
  - congruence.
  - done.
  - destruct (fetch_direct_outcome _ _ _ _ Hf)
      as (_ & _ & [(-> & _)|[(-> & _)|(-> & _)]]); rewrite Es; cbn; eauto.
Qed.

(** X13. When [/now] is called after the window has elapsed and the login
    request fails, the exception leaves the old page in the cache under a
    fresh timestamp; a [/] call within the window counted from that failure
    is then served that old page without contacting the portal. *)
Theorem failed_now_revalidates_stale_page (env1 env2 : Env)
    (st st0 st1 : State) (server_cache : float) (e : exn)
    (r : result (gmap string value)) :
  server_cache_of pf env1 st = (st0, Ok server_cache) →
  expired (CACHE_last_update st) (now_timestamp env1) server_cache = true →
  on_post (portal env1) URLS_login (payload st) (cookies st) = Raise e →
  now pf sel env1 st = (st1, r) →
  r = Raise e ∧
  CACHE_home st1 = CACHE_home st ∧
  CACHE_last_update st1 = now_timestamp env1 ∧
  (truthy (CACHE_home st) = true →
   expired (now_timestamp env1) (now_timestamp env2) server_cache = false →
   ∃ st2 r2,
     packages pf sel env2 st1 = (st2, Ok r2) ∧
     sent st2 = sent st1 ∧
     CACHE_home st2 = CACHE_home st).
Proof.
  intros Hsc Hexp Hpost Hrun. unfold now in Hrun.
  destruct (get_packages_split _ _ _ _ _ Hrun) as (sta & r1 & Hphase & _ & Hr).
  destruct (cache_phase_outcome _ _ _ _ _ Hphase)
    as [(e' & Hsc' & _)|(st0' & sc' & Hsc' & [(? & _)|(st2 & Hf & Hrest)])];
    [congruence|done|].
  rewrite Hsc in Hsc'. injection Hsc' as <- <-.
  destruct Hrest as (_ & Ec & Ep & El & _ & Et & _ & Eh).
  rewrite fetch_direct_run in Hf. cbv zeta in Hf.
  rewrite Ep, Ec, Hpost in Hf. injection Hf as <- <-.
  destruct Hr as [-> ->]. cbn.
  rewrite (Eh eq_refl), (Et Hexp).
  split; [done|]. split; [done|]. split; [done|].
  intros Ht Hwin.
  set (st1 := record_request (POST URLS_login) (print (LogLine "CACHE: DIRECT") st2)).
  assert (Hsc1 : server_cache_of pf env2 st1 = (st1, Ok server_cache)).
  { apply (server_cache_of_memo _ _ _ _ Hsc). by subst st1. }
  destruct (cache_phase_hit env2 st1) as (st0' & sc' & Hsc' & Hphase').
  { subst st1. cbn. by rewrite (Eh eq_refl). }
  { exists st1, server_cache. split; [done|]. subst st1. cbn. by rewrite (Et Hexp). }
  rewrite Hsc1 in Hsc'. injection Hsc' as <- <-.
  unfold packages. rewrite (get_packages_run _ _ _ _ _ _ _ Hphase').
  assert (Hh1 : CACHE_home st1 = CACHE_home st) by (subst st1; cbn; by apply Eh).
  destruct (CACHE_home st1) as [|page] eqn:Hp1; [by rewrite <- Hh1 in Ht|].
  destruct (respond_page_ok page (print (LogLine "CACHE: CACHE") st1))
    as (st2' & v & Hresp & Hfr).
  exists st2', v. split; [done|].
  destruct Hfr as (Fh & _ & _ & _ & _ & Fs & _).
  split; [by rewrite Fs|]. rewrite Fh.
  change (CACHE_home (print (LogLine "CACHE: CACHE") st1)) with (CACHE_home st1).
  congruence.
Qed.

(** X14. A page cached while logged out keeps being answered with the
    empty state: within the window the call neither logs in nor changes the
    cache or the cookies, so the next call within the window does the same. *)
Theorem logged_out_cache_hit_stays_empty (env : Env) (st : State) :
  truthy (CACHE_home st) = true →
  within_window pf env st →
  cookies st !! "WebSite_autologin" = None →
  ∃ st',
    packages pf sel env st = (st', Ok INITIAL_STATE) ∧
    sent st' = sent st ∧
    cookies st' = cookies st ∧
    CACHE_home st' = CACHE_home st ∧
    CACHE_last_update st' = CACHE_last_update st.
Proof.
  intros Ht Hwin Hout.
  destruct (cache_phase_hit env st Ht Hwin) as (st0 & sc & Hsc & Hphase).
  destruct (server_cache_of_frame _ _ _ _ _ Hsc) as (Hh & Hl & Hc & _ & Hs & _).
  unfold packages. rewrite (get_packages_run _ _ _ _ _ _ _ Hphase).
  rewrite respond_logged_out by (cbn; by rewrite Hc).
  eexists. split; [reflexivity|]. cbn. by rewrite Hs, Hc, Hh, Hl.
Qed.

(** X15. A call served from the cache returns the very response of the call
    before it, and sends nothing. *)
Theorem cached_response_repeats (env1 env2 : Env) (st st1 : State)
    (r1 : gmap string value) :
  packages pf sel env1 st = (st1, Ok r1) →
  truthy (CACHE_home st1) = true →
  within_window pf env2 st1 →
  ∃ st2,
    packages pf sel env2 st1 = (st2, Ok r1) ∧
    sent st2 = sent st1 ∧
    CACHE_home st2 = CACHE_home st1.
Proof.
  intros Hrun Ht Hwin. unfold packages in Hrun.
  destruct (get_packages_split _ _ _ _ _ Hrun) as (sta & ra & Hphase & Hfr & Hr).
  destruct ra as [eps_home|e]; [|by destruct Hr].
  pose proof (cache_phase_home _ _ _ _ _ Hphase) as Hhome.
  destruct Hfr as (Fh & _ & Fc & _).
  destruct (cache_phase_hit env2 st1 Ht Hwin) as (st0 & sc & Hsc & Hphase2).
  destruct (server_cache_of_frame _ _ _ _ _ Hsc) as (_ & _ & Hc & _ & Hs & _).
  unfold packages. rewrite (get_packages_run _ _ _ _ _ _ _ Hphase2).
  rewrite Fh, Hhome.
  set (stc := print (LogLine "CACHE: CACHE") st0).
  pose proof (respond_result sel eps_home stc sta) as Hres.
  rewrite Hr in Hres. cbn [snd] in Hres.
  pose proof (respond_frame sel eps_home stc) as Hfr2.
  destruct (respond sel eps_home stc) as [st2 r2] eqn:Hresp.
  cbn [snd fst] in Hres, Hfr2.
  rewrite Hres by (subst stc; cbn; congruence).
  exists st2. split; [done|].
  destruct Hfr2 as (Gh & _ & _ & _ & _ & Gs & _).
  split; [by rewrite Gs|]. rewrite Gh. subst stc. cbn.
  destruct (server_cache_of_frame _ _ _ _ _ Hsc) as (-> & _). congruence.
Qed.

(** X17. Every response has an [items] list and no key besides [items] and
    [logged_in]; without [logged_in] the list is empty; each item is [{}] or
    has exactly the eight fields. *)
Theorem get_packages_response_shape (use_cache : bool) (env : Env)
    (st st' : State) (r : gmap string value) :
  get_packages pf sel use_cache env st = (st', Ok r) →
  ∃ items,
    r !! "items" = Some (VList items) ∧
    (∀ k, k ≠ "items" → k ≠ "logged_in" → r !! k = None) ∧
    (r !! "logged_in" = None → items = []) ∧
    Forall (fun item : gmap string item_val =>
              item = ∅ ∨ dom item = item_keys) items.
Proof.
  intros Hrun.
  destruct (get_packages_split _ _ _ _ _ Hrun) as (st1 & r1 & _ & _ & Hr).
  destruct r1 as [eps_home|e]; [|by destruct Hr].
  destruct (cookies st1 !! "WebSite_autologin") as [c|] eqn:Hc.
  - destruct eps_home as [|page].
    { rewrite respond_no_page in Hr by (by rewrite Hc). done. }
    destruct (respond_logged_in sel (Page page) st1 (text page))
      as (st2 & Hr' & _); [by rewrite Hc|done|].
    rewrite Hr' in Hr. injection Hr as _ <-.
    eexists. split; [by rewrite lookup_insert_eq|].
    split; [|split].
    + intros k H1 H2. by rewrite !lookup_insert_ne, lookup_empty.
    + rewrite lookup_insert_ne, lookup_insert_eq by done. done.
    + apply Forall_fmap, Forall_forall. intros soup _. apply package_of_shape.
  - rewrite respond_logged_out in Hr by done. injection Hr as _ <-.
    exists []. unfold INITIAL_STATE. split; [by rewrite lookup_singleton_eq|].
    split; [|split; [done|constructor]].
    intros k H1 _. by rewrite lookup_singleton_ne.
Qed.

End GetPackagesMore.

(** ** The further statements at the sample data *)

Lemma get_packages_footprint_witness :
  sent (fst (now float_of_digits sample_select
               (env_at 1700000060 portal_down) st_warm)) =
    sent st_warm ++ [POST URLS_login] ∧
  payload (fst (now float_of_digits sample_select
                  (env_at 1700000060 portal_down) st_warm)) = payload st_warm.
Proof.
  destruct (get_packages_footprint float_of_digits sample_select false
              (env_at 1700000060 portal_down) st_warm _ _
              (surjective_pairing _)) as (Hs & _ & Hp).
  split; [|exact Hp].
  destruct Hs as [Hs|[[Hs _]|Hs]]; [|exact Hs|];
    vm_compute in Hs; discriminate.
Defined.

Lemma cache_duration_fixed_witness :
  server_cache_of float_of_digits
    {| now_timestamp := 1700009999; config_ini := ini_no_user;
       portal := portal_down |}
    (fst (packages float_of_digits sample_select
            (env_at 1700000060 (portal_serving page_200)) st_warm)) =
  (fst (packages float_of_digits sample_select
          (env_at 1700000060 (portal_serving page_200)) st_warm), Ok 30%float).
Proof.
  apply (cache_duration_fixed float_of_digits sample_select true
           (env_at 1700000060 (portal_serving page_200)) st_warm
           (fst (server_cache_of float_of_digits
                   (env_at 1700000060 (portal_serving page_200)) st_warm))
           _ 30%float
           (snd (packages float_of_digits sample_select
                   (env_at 1700000060 (portal_serving page_200)) st_warm))).
  - vm_compute. reflexivity.
  - apply surjective_pairing.
Defined.

Lemma clear_then_packages_fetches_witness :
  ∃ rest,
    sent (fst (packages float_of_digits sample_select
                 (env_at 1700000060 (portal_serving page_200))
                 (fst (clear st_warm)))) =
    sent st_warm ++ POST URLS_login :: rest.
Proof.
  apply (clear_then_packages_fetches float_of_digits sample_select
           (env_at 1700000060 (portal_serving page_200)) st_warm
           (fst (server_cache_of float_of_digits
                   (env_at 1700000060 (portal_serving page_200))
                   (fst (clear st_warm))))
           _ 30%float
           (snd (packages float_of_digits sample_select
                   (env_at 1700000060 (portal_serving page_200))
                   (fst (clear st_warm))))).
  - vm_compute. reflexivity.
  - apply surjective_pairing.
Defined.

Lemma failed_now_revalidates_stale_page_witness :
  CACHE_home (fst (now float_of_digits sample_select
                     (env_at 1700003600 portal_down) st_warm)) = Page page_200 ∧
  CACHE_last_update (fst (now float_of_digits sample_select
                            (env_at 1700003600 portal_down) st_warm)) =
    1700003600%float ∧
  ∃ st2 r2,
    packages float_of_digits sample_select (env_at 1700003660 portal_down)
      (fst (now float_of_digits sample_select
              (env_at 1700003600 portal_down) st_warm)) = (st2, Ok r2) ∧
    sent st2 = [POST URLS_login; GET URLS_home; POST URLS_login].
Proof.
  destruct (failed_now_revalidates_stale_page float_of_digits sample_select
              (env_at 1700003600 portal_down) (env_at 1700003660 portal_down)
              st_warm
              (fst (server_cache_of float_of_digits
                      (env_at 1700003600 portal_down) st_warm))
              (fst (now float_of_digits sample_select
                      (env_at 1700003600 portal_down) st_warm))
              30%float RequestException
              (snd (now float_of_digits sample_select
                      (env_at 1700003600 portal_down) st_warm)))
    as (_ & Hh & Hl & Hnext).
  - vm_compute. reflexivity.
  - vm_compute. reflexivity.
  - reflexivity.
  - apply surjective_pairing.
  - split; [exact Hh|]. split; [exact Hl|].
    destruct Hnext as (st2 & r2 & Hrun & Hs & _).
    + reflexivity.
    + vm_compute. reflexivity.
    + exists st2, r2. split; [exact Hrun|]. rewrite Hs. vm_compute. reflexivity.
Defined.

Lemma logged_out_cache_hit_stays_empty_witness :
  ∃ st',
    packages float_of_digits sample_select
      (env_at 1700000060 (portal_serving page_200)) st_logged_out =
      (st', Ok INITIAL_STATE) ∧
    sent st' = sent st_logged_out ∧
    cookies st' = ∅.
Proof.
  destruct (logged_out_cache_hit_stays_empty float_of_digits sample_select
              (env_at 1700000060 (portal_serving page_200)) st_logged_out)
    as (st' & Hrun & Hs & Hc & _).
  - reflexivity.
  - exists (fst (server_cache_of float_of_digits
                   (env_at 1700000060 (portal_serving page_200)) st_logged_out)),
      30%float.
    split; vm_compute; reflexivity.
  - reflexivity.
  - exists st'. split; [exact Hrun|]. split; [exact Hs|exact Hc].
Defined.

Lemma cached_response_repeats_witness :
  ∃ st1 st2 r,
    packages float_of_digits sample_select
      (env_at 1700000000 (portal_serving page_200)) st_boot = (st1, Ok r) ∧
    packages float_of_digits sample_select
      (env_at 1700000060 portal_down) st1 = (st2, Ok r) ∧
    sent st2 = sent st1.
Proof.
  set (st1 := fst (packages float_of_digits sample_select
                     (env_at 1700000000 (portal_serving page_200)) st_boot)).
  set (r := <["items" := VList (package_of <$> sample_select "dashboard")]> (
            <["logged_in" := VBool true]> (∅ : gmap string value))).
  assert (Hfirst : packages float_of_digits sample_select
                     (env_at 1700000000 (portal_serving page_200)) st_boot =
                   (st1, Ok r)).
  { vm_compute. reflexivity. }
  destruct (cached_response_repeats float_of_digits sample_select
              (env_at 1700000000 (portal_serving page_200))
              (env_at 1700000060 portal_down) st_boot st1 r Hfirst)
    as (st2 & Hrun & Hs & _).
  - vm_compute. reflexivity.
  - exists (fst (server_cache_of float_of_digits
                   (env_at 1700000060 portal_down) st1)), 30%float.
    split; vm_compute; reflexivity.
  - exists st1, st2, r. split; [exact Hfirst|]. split; [exact Hrun|exact Hs].
Defined.

Lemma try_block_status_tokens_witness :
  ∃ l, try_block row_ok = Ok l ∧ l_status l ≠ "" ∧ has_space (l_status_label l) = false.
Proof.
  set (l := {| l_status := "status5"; l_status_label := "Disponible";
               l_condition := INode (NavigableString "OK");
               l_tracking_number := INode (NavigableString "EPS123");
               l_content := INode (NavigableString "Books");
               l_sender := INode (NavigableString "ACME");
               l_weight := INode (NavigableString "2.5") |}).
  assert (Hl : try_block row_ok = Ok l) by (vm_compute; reflexivity).
  destruct (try_block_status_tokens row_ok l Hl) as (H1 & _ & _ & H2).
  exists l. split; [exact Hl|]. split; [exact H1|exact H2].
Defined.

Lemma get_packages_response_shape_witness :
  ∃ items,
    snd (get_packages float_of_digits sample_select true
           (env_at 1700000060 (portal_serving page_200)) st_warm) =
      Ok (<["items" := VList items]> (<["logged_in" := VBool true]> ∅)) ∧
    Forall (fun item : gmap string item_val =>
              item = ∅ ∨ dom item = item_keys) items.
Proof.
  set (r := <["items" := VList (package_of <$> sample_select "dashboard")]> (
            <["logged_in" := VBool true]> (∅ : gmap string value))).
  assert (Hrun : get_packages float_of_digits sample_select true
                   (env_at 1700000060 (portal_serving page_200)) st_warm =
                 (fst (get_packages float_of_digits sample_select true
                         (env_at 1700000060 (portal_serving page_200)) st_warm),
                  Ok r)).
  { vm_compute. reflexivity. }
  destruct (get_packages_response_shape float_of_digits sample_select true
              (env_at 1700000060 (portal_serving page_200)) st_warm _ r Hrun)
    as (items & Hi & _ & _ & Hall).
  exists items. split; [|exact Hall].
  rewrite Hrun. cbn [snd]. subst r.
  rewrite lookup_insert_eq in Hi. injection Hi as <-. reflexivity.
Defined.
